(** * Audio processor: transcript, summary, action items, Teams card

    A shallow embedding of the Python sources

    - [src/teams_poster.py]   (class [TeamsPoster])
    - [src/transcriber.py]    (class [Transcriber])
    - [src/text_processor.py] (class [TextProcessor])
    - [src/main.py]           (the command-line driver [main])
    - [app.py]                (the Streamlit front end: the file does not
                               compile, and only the indentation of the
                               lines that stop the compiler is modelled)

    Conventions.

    - A Python [str] is a [string] whose characters are read as the code
      points 0..255; [isspace], [strip] and [lower] follow CPython on that
      range.
    - Everything the code does to the outside (console, prompts, speech
      model, generative model, HTTP) is an [event] appended to a trace; what
      the outside answers comes from a [World] of oracles.
    - A computation is a trace together with its result: a value, an early
      [return] of the enclosing function, or a raised exception. *)

From Stdlib Require Import String Ascii List ZArith Bool Lia DecimalString.
Import ListNotations.

Local Open Scope string_scope.
Local Open Scope Z_scope.

Set Warnings "-register-all".

(* ================================================================== *)
(** ** Python strings *)
(* ================================================================== *)

Module PyStr.

Definition code (c : ascii) : N := N_of_ascii c.

(** [Py_UNICODE_ISSPACE] restricted to code points below 256:
    TAB LF VT FF CR, FS GS RS US, SPACE, NEL, NBSP. *)
Definition is_whitespace (c : ascii) : bool :=
  let n := code c in
  ((9 <=? n) && (n <=? 13))%N || ((28 <=? n) && (n <=? 32))%N
  || (n =? 133)%N || (n =? 160)%N.

Fixpoint all_whitespace (s : string) : bool :=
  match s with
  | EmptyString => true
  | String c t => is_whitespace c && all_whitespace t
  end.

(** [s.isspace()]: at least one character and only whitespace. *)
Definition isspace (s : string) : bool :=
  match s with
  | EmptyString => false
  | String _ _ => all_whitespace s
  end.

(** Truth value of a string: [bool(s)]. *)
Definition truthy (s : string) : bool :=
  match s with
  | EmptyString => false
  | String _ _ => true
  end.

Fixpoint lstrip (s : string) : string :=
  match s with
  | EmptyString => EmptyString
  | String c t => if is_whitespace c then lstrip t else s
  end.

Fixpoint rstrip (s : string) : string :=
  match s with
  | EmptyString => EmptyString
  | String c t =>
      match rstrip t with
      | EmptyString => if is_whitespace c then EmptyString
                       else String c EmptyString
      | t' => String c t'
      end
  end.

(** [s.strip()] *)
Definition strip (s : string) : string := rstrip (lstrip s).

(** [s.startswith(p)] *)
Definition startswith (p s : string) : bool := prefix p s.

(** [needle in s] *)
Fixpoint contains (needle s : string) : bool :=
  prefix needle s
  || match s with
     | EmptyString => false
     | String _ t => contains needle t
     end.

(** [str.lower] on code points below 256: A-Z and the Latin-1 capitals
    (0xC0-0xDE without the multiplication sign 0xD7) move up by 32. *)
Definition lower_char (c : ascii) : ascii :=
  let n := code c in
  if ((65 <=? n) && (n <=? 90))%N
     || ((192 <=? n) && (n <=? 222) && negb (n =? 215))%N
  then ascii_of_N (n + 32) else c.

Fixpoint lower (s : string) : string :=
  match s with
  | EmptyString => EmptyString
  | String c t => String (lower_char c) (lower t)
  end.

(** [str(n)] for an [int]. *)
Definition of_int (z : Z) : string := NilZero.string_of_int (Z.to_int z).

(** [os.path.basename] (posixpath): what follows the last slash. *)
Fixpoint basename (p : string) : string :=
  match p with
  | EmptyString => EmptyString
  | String c t =>
      if contains "/" t then basename t
      else if (c =? "/")%char then t else p
  end.

Definition nl : string := String "010"%char EmptyString.
Definition dquote : string := String "034"%char EmptyString.

End PyStr.

(* ================================================================== *)
(** ** JSON values and [json.dumps] *)
(* ================================================================== *)

Module Json.

Inductive json : Type :=
| JNull
| JBool (b : bool)
| JStr (s : string)
| JArr (items : list json)
| JObj (fields : list (string * json)).

Definition hex_digit (n : N) : string :=
  match n with
  | 0 => "0" | 1 => "1" | 2 => "2" | 3 => "3" | 4 => "4" | 5 => "5"
  | 6 => "6" | 7 => "7" | 8 => "8" | 9 => "9" | 10 => "a" | 11 => "b"
  | 12 => "c" | 13 => "d" | 14 => "e" | _ => "f"
  end%N.

(** One character of [py_encode_basestring_ascii] ([ensure_ascii=True]). *)
Definition escape_char (c : ascii) : string :=
  let n := PyStr.code c in
  if (n =? 34)%N then "\" ++ PyStr.dquote
  else if (n =? 92)%N then "\\"
  else if (n =? 10)%N then "\n"
  else if (n =? 13)%N then "\r"
  else if (n =? 9)%N then "\t"
  else if (n =? 8)%N then "\b"
  else if (n =? 12)%N then "\f"
  else if ((32 <=? n) && (n <=? 126))%N then String c EmptyString
  else "\u00" ++ hex_digit (n / 16) ++ hex_digit (n mod 16).

Fixpoint escape (s : string) : string :=
  match s with
  | EmptyString => EmptyString
  | String c t => escape_char c ++ escape t
  end.

Definition quote (s : string) : string :=
  PyStr.dquote ++ escape s ++ PyStr.dquote.

(** [json.dumps] with its default separators. *)
Fixpoint dumps (j : json) : string :=
  match j with
  | JNull => "null"
  | JBool true => "true"
  | JBool false => "false"
  | JStr s => quote s
  | JArr items =>
      "[" ++ (fix go (l : list json) : string :=
                match l with
                | [] => EmptyString
                | x :: r =>
                    dumps x ++ match r with
                               | [] => EmptyString
                               | _ :: _ => ", " ++ go r
                               end
                end) items ++ "]"
  | JObj fields =>
      "{" ++ (fix go (l : list (string * json)) : string :=
                match l with
                | [] => EmptyString
                | (k, v) :: r =>
                    quote k ++ ": " ++ dumps v
                    ++ match r with
                       | [] => EmptyString
                       | _ :: _ => ", " ++ go r
                       end
                end) fields ++ "}"
  end.

(** [obj[key]]: the last binding wins, as in a Python dict literal. *)
Fixpoint field (key : string) (fields : list (string * json)) : option json :=
  match fields with
  | [] => None
  | (k, v) :: r =>
      match field key r with
      | Some v' => Some v'
      | None => if (k =? key)%string then Some v else None
      end
  end.

Definition get (key : string) (j : json) : option json :=
  match j with
  | JObj fields => field key fields
  | _ => None
  end.

End Json.

(* ================================================================== *)
(** ** Effects: exceptions, events, traces *)
(* ================================================================== *)

Module IO.

(** The exception classes the sources name in their [except] clauses.
    Every one of them is a subclass of [Exception]. *)
Inductive exn : Type :=
| ValueError (msg : string)
| NameError (msg : string)
| HTTPError (msg : string)
    (* requests.exceptions.HTTPError, a RequestException *)
| RequestException (msg : string)
    (* the other requests exceptions: ConnectionError, Timeout, ... *)
| ResponseError (status_code : Z) (error : string)
    (* ollama.ResponseError *)
| OtherException (msg : string).

(** [str(e)] *)
Definition str_exn (e : exn) : string :=
  match e with
  | ValueError m | NameError m | HTTPError m
  | RequestException m | OtherException m => m
  | ResponseError status error =>
      error ++ " (status code: " ++ PyStr.of_int status ++ ")"
  end.

Inductive event : Type :=
| Print (s : string)
| Input (prompt : string)
| RecordAudio (duration : Z) (filename : string)
| LoadModel (name : string)
| Transcribe (path : string)
| NewClient (host : option string)
| Show (model : string)
| Chat (model : string) (prompt : string)
| HttpPost (url : string) (headers : list (string * string))
           (data : string) (timeout : Z).

Definition trace : Type := list event.

Inductive result (A : Type) : Type :=
| Done (a : A)          (* ran to the end with a value *)
| Exit                  (* the enclosing function executed [return] *)
| Raised (e : exn).     (* an exception is propagating *)

Arguments Done {A} a.
Arguments Exit {A}.
Arguments Raised {A} e.

Definition IO (A : Type) : Type := trace * result A.

Definition ret {A} (a : A) : IO A := ([], Done a).

Definition bind {A B} (m : IO A) (k : A -> IO B) : IO B :=
  match m with
  | (t, Done a) => let (t', r) := k a in ((t ++ t')%list, r)
  | (t, Exit) => (t, Exit)
  | (t, Raised e) => (t, Raised e)
  end.

Definition emit (ev : event) : IO unit := ([ev], Done tt).
Definition print (s : string) : IO unit := emit (Print s).
Definition raise {A} (e : exn) : IO A := ([], Raised e).
Definition exit {A} : IO A := ([], Exit).

(** What a collaborator answers to a call. *)
Inductive answer (A : Type) : Type :=
| Returns (a : A)
| Throws (e : exn).

Arguments Returns {A} a.
Arguments Throws {A} e.

Definition call {A} (ev : event) (ans : answer A) : IO A :=
  ([ev], match ans with Returns a => Done a | Throws e => Raised e end).

(** [try: m  except Exception as e: h e] *)
Definition try_except {A} (m : IO A) (h : exn -> IO A) : IO A :=
  match m with
  | (t, Raised e) => let (t', r) := h e in ((t ++ t')%list, r)
  | _ => m
  end.

Definition run_trace {A} (m : IO A) : trace := fst m.
Definition run_result {A} (m : IO A) : result A := snd m.

End IO.

Import IO.

Declare Scope io_scope.
Delimit Scope io_scope with io.
Notation "x <- m ;; k" := (bind m (fun x => k))
  (at level 61, m at next level, right associativity) : io_scope.
Notation "m ;; k" := (bind m (fun _ => k))
  (at level 61, right associativity) : io_scope.
Local Open Scope io_scope.

(* ================================================================== *)
(** ** src/teams_poster.py *)
(* ================================================================== *)

Module TeamsPoster.

Import Json.

(** The part of [requests.Response] the code reads. *)
Record Response : Type := mkResponse {
  status_code : Z;
  text : string;
  reason : string;
  url : string
}.

(** [requests.post(url, headers=, data=, timeout=)] as the network answers. *)
Definition network : Type :=
  string -> list (string * string) -> string -> Z -> answer Response.

(** [Response.raise_for_status]: HTTPError for 400 <= status < 600. *)
Definition raise_for_status (r : Response) : IO unit :=
  if (400 <=? status_code r) && (status_code r <? 500) then
    raise (HTTPError (PyStr.of_int (status_code r) ++ " Client Error: "
                      ++ reason r ++ " for url: " ++ url r))
  else if (500 <=? status_code r) && (status_code r <? 600) then
    raise (HTTPError (PyStr.of_int (status_code r) ++ " Server Error: "
                      ++ reason r ++ " for url: " ++ url r))
  else ret tt.

Record t : Type := mk { webhook_url : string }.

(** [TeamsPoster.__init__] *)
Definition init (webhook_url : string) : IO t :=
  if negb (PyStr.truthy webhook_url) then
    raise (ValueError "MS Teams Webhook URL cannot be empty.")
  else
    (if negb (PyStr.startswith "https://" webhook_url) then
       print "Warning: The provided webhook URL seems invalid. Ensure it's a correct MS Teams Incoming Webhook URL."
     else ret tt) ;;
    ret (mk webhook_url).

(** A title is a [str] or [None]. *)
Definition json_of_title (title : option string) : json :=
  match title with
  | Some s => JStr s
  | None => JNull
  end.

Definition headers : list (string * string) :=
  [("Content-Type", "application/json")].

(** The dict literal [payload] of [post_message]. *)
Definition payload (title : option string) (message_text : string) : json :=
  JObj [
    ("type", JStr "message");
    ("attachments", JArr [
      JObj [
        ("contentType", JStr "application/vnd.microsoft.card.adaptive");
        ("contentUrl", JNull);
        ("content", JObj [
          ("$schema", JStr "http://adaptivecards.io/schemas/adaptive-card.json");
          ("type", JStr "AdaptiveCard");
          ("version", JStr "1.4");
          ("body", JArr [
            JObj [
              ("type", JStr "TextBlock");
              ("text", json_of_title title);
              ("weight", JStr "bolder");
              ("size", JStr "medium")
            ];
            JObj [
              ("type", JStr "TextBlock");
              ("text", JStr message_text);
              ("wrap", JBool true)
            ]
          ])
        ])
      ]
    ])
  ].

(** [TeamsPoster.post_message].  In the [HTTPError] handler [e.response]
    is falsy ([Response.__bool__] is [ok]), so the fallback text prints. *)
Definition post_message (net : network) (self : t)
    (title : option string) (message_text : string) : IO bool :=
  if negb (PyStr.truthy message_text) || PyStr.isspace message_text then
    print "Message text is empty. Nothing to post to Teams." ;;
    ret false
  else
    print (PyStr.nl ++ "Posting message to MS Teams...") ;;
    try_except
      (response <- call (HttpPost (webhook_url self) headers
                           (dumps (payload title message_text)) 10)
                        (net (webhook_url self) headers
                           (dumps (payload title message_text)) 10) ;;
       raise_for_status response ;;
       if (status_code response =? 200) || (text response =? "1")%string then
         print "Message posted successfully to MS Teams." ;;
         ret true
       else
         print ("Failed to post message to MS Teams. Status: "
                ++ PyStr.of_int (status_code response)
                ++ ", Response: " ++ text response) ;;
         ret false)
      (fun e =>
         match e with
         | HTTPError _ =>
             print ("HTTP error posting to MS Teams: " ++ str_exn e) ;;
             print "Response content: No response content" ;;
             ret false
         | RequestException _ =>
             print ("Error posting to MS Teams: " ++ str_exn e) ;;
             ret false
         | _ =>
             print ("An unexpected error occurred while posting to Teams: "
                    ++ str_exn e) ;;
             ret false
         end).

End TeamsPoster.

(* ================================================================== *)
(** ** src/audio_recorder.py *)
(* ================================================================== *)

Module AudioRecorder.

(** [sd.rec], [sd.wait] and [write] together: they return or raise. *)
Definition device : Type := Z -> string -> answer unit.

(** [AudioRecorder.record_audio] *)
Definition record_audio (dev : device) (duration : Z)
    (output_filename : string) : IO string :=
  print ("Recording for " ++ PyStr.of_int duration ++ " seconds...") ;;
  call (RecordAudio duration output_filename) (dev duration output_filename) ;;
  print ("Recording saved to " ++ output_filename) ;;
  ret output_filename.

End AudioRecorder.

(* ================================================================== *)
(** ** src/transcriber.py *)
(* ================================================================== *)

Module Transcriber.

(** The speech library as the code sees it. *)
Record whisper : Type := mkWhisper {
  imported : bool;                      (* [import whisper] succeeded *)
  load_model : string -> answer unit;   (* [whisper.load_model(name)] *)
  transcribe : string -> answer string
    (* [model.transcribe(path, fp16=False)["text"]] *)
}.

(** [model] is [true] when [self.model] holds a loaded model, [false] when
    it is [None]. *)
Record t : Type := mk { model_name : string; model : bool }.

(** [Transcriber.__init__] *)
Definition init (lib : whisper) (model_name : string) : IO t :=
  if imported lib then
    try_except
      (print ("Loading Whisper model '" ++ model_name ++ "'...") ;;
       call (LoadModel model_name) (load_model lib model_name) ;;
       print "Whisper model loaded successfully." ;;
       ret (mk model_name true))
      (fun e =>
         print ("Error loading Whisper model '" ++ model_name ++ "': "
                ++ str_exn e) ;;
         print "Please ensure the model name is correct and you have enough resources." ;;
         ret (mk model_name false))
  else
    print "Whisper library is not available. Transcription will not work." ;;
    ret (mk model_name false).

(** [Transcriber.transcribe_audio]; [path_exists] is [os.path.exists]. *)
Definition transcribe_audio (lib : whisper) (path_exists : string -> bool)
    (self : t) (audio_file_path : string) : IO string :=
  if negb (model self) then
    ret "Error: Whisper model not loaded. Cannot transcribe."
  else if negb (path_exists audio_file_path) then
    ret ("Error: Audio file " ++ audio_file_path ++ " not found.")
  else
    print ("Transcribing " ++ audio_file_path ++ " using Whisper model '"
           ++ model_name self ++ "'...") ;;
    try_except
      (transcript <- call (Transcribe audio_file_path)
                          (transcribe lib audio_file_path) ;;
       print "Transcription complete." ;;
       ret transcript)
      (fun e =>
         match e with
         | NameError _ =>
             ret "Error: Whisper library is not installed or failed to import. Cannot transcribe."
         | _ =>
             let error_message :=
               "Error during Whisper transcription: " ++ str_exn e in
             let error_message :=
               if PyStr.contains "ffmpeg" (PyStr.lower (str_exn e)) then
                 error_message ++ PyStr.nl
                 ++ "This might be due to ffmpeg not being installed or not found in PATH."
                 ++ PyStr.nl
                 ++ "Please install ffmpeg: https://ffmpeg.org/download.html"
               else error_message in
             print error_message ;;
             ret error_message
         end).

End Transcriber.

(* ================================================================== *)
(** ** src/text_processor.py *)
(* ================================================================== *)

Module TextProcessor.

(** The generative-model client as the code sees it. *)
Record ollama : Type := mkOllama {
  new_client : option string -> answer unit;
    (* [ollama.Client(host=host)], or [ollama.Client()] for no host *)
  base_url : option string -> string;     (* [client._client.base_url] *)
  show : string -> answer unit;           (* [client.show(model)] *)
  chat : string -> string -> answer string
    (* [client.chat(model=, messages=[{role: user, content: prompt}])
        ['message']['content']] *)
}.

Record t : Type := mk { ollama_model_name : string; client : option string }.

(** [TextProcessor.__init__].  The client is created outside the [try], so
    an exception of [ollama.Client] leaves the constructor; of the
    availability check only [ollama.ResponseError] is caught. *)
Definition init (lib : ollama) (ollama_model_name : string)
    (ollama_host : option string) : IO t :=
  let host :=
    match ollama_host with
    | Some h => if PyStr.truthy h then Some h else None
    | None => None
    end in
  call (NewClient host) (new_client lib host) ;;
  print ("Ollama client for text processing initialized. Model: "
         ++ ollama_model_name ++ ", Target host: " ++ base_url lib host) ;;
  try_except
    (call (Show ollama_model_name) (show lib ollama_model_name) ;;
     print ("Successfully connected to Ollama and model '"
            ++ ollama_model_name ++ "' is available."))
    (fun e =>
       match e with
       | ResponseError _ _ =>
           print ("Warning: Ollama model '" ++ ollama_model_name
                  ++ "' not found or error connecting: " ++ str_exn e) ;;
           print "Summarization and action item generation may fail if the model is not available."
       | _ => raise e
       end) ;;
  ret (mk ollama_model_name host).

Definition summarize_prompt (text : string) : string :=
  "Summarize the following text in about 3-4 key sentences:"
  ++ PyStr.nl ++ PyStr.nl ++ text ++ PyStr.nl ++ PyStr.nl ++ "Summary:".

(** [TextProcessor.summarize_text] *)
Definition summarize_text (lib : ollama) (self : t) (text : string)
    : IO string :=
  if negb (PyStr.truthy text) || PyStr.isspace text then
    ret "Error: Input text is empty, cannot summarize."
  else
    print (PyStr.nl ++ "Summarizing text using Ollama model "
           ++ ollama_model_name self ++ "...") ;;
    try_except
      (summary <- call (Chat (ollama_model_name self) (summarize_prompt text))
                       (chat lib (ollama_model_name self)
                             (summarize_prompt text)) ;;
       print "Summarization complete." ;;
       ret (PyStr.strip summary))
      (fun e =>
         match e with
         | ResponseError status error =>
             let error_msg :=
               "Error during summarization with Ollama: "
               ++ PyStr.of_int status ++ " - " ++ error in
             print error_msg ;;
             ret error_msg
         | _ =>
             let error_msg :=
               "An unexpected error occurred during summarization: "
               ++ str_exn e in
             print error_msg ;;
             ret error_msg
         end).

Definition action_items_prompt (text : string) : string :=
  "Based on the following text, extract key action items." ++ PyStr.nl
  ++ "If no specific action items are mentioned, state 'No specific action items found'."
  ++ PyStr.nl
  ++ "Present the action items as a bulleted list." ++ PyStr.nl ++ PyStr.nl
  ++ "Text:" ++ PyStr.nl ++ text ++ PyStr.nl ++ PyStr.nl ++ "Action Items:".

(** [TextProcessor.generate_action_items] *)
Definition generate_action_items (lib : ollama) (self : t) (text : string)
    : IO string :=
  if negb (PyStr.truthy text) || PyStr.isspace text then
    ret "Error: Input text is empty, cannot generate action items."
  else
    print (PyStr.nl ++ "Generating action items using Ollama model "
           ++ ollama_model_name self ++ "...") ;;
    try_except
      (action_items <-
         call (Chat (ollama_model_name self) (action_items_prompt text))
              (chat lib (ollama_model_name self) (action_items_prompt text)) ;;
       print "Action item generation complete." ;;
       ret (PyStr.strip action_items))
      (fun e =>
         match e with
         | ResponseError status error =>
             let error_msg :=
               "Error during action item generation with Ollama: "
               ++ PyStr.of_int status ++ " - " ++ error in
             print error_msg ;;
             ret error_msg
         | _ =>
             let error_msg :=
               "An unexpected error occurred during action item generation: "
               ++ str_exn e in
             print error_msg ;;
             ret error_msg
         end).

End TextProcessor.

(* ================================================================== *)
(** ** The outside world *)
(* ================================================================== *)

(** Everything the drivers ask of their surroundings. *)
Record World : Type := mkWorld {
  typed_duration : answer Z;
    (* [int(input(...))] of main.py: a number or a [ValueError] *)
  typed_choice : answer string;
    (* [input(...)] at the yes/no prompt: a line, or an exception such as
       [EOFError] when the input has ended *)
  path_exists : string -> bool;         (* [os.path.exists] *)
  getenv : string -> option string;     (* [os.getenv] *)
  recorder : AudioRecorder.device;
  speech : Transcriber.whisper;
  llm : TextProcessor.ollama;
  net : TeamsPoster.network
}.

(** [os.getenv(name, default)] *)
Definition getenv_default (w : World) (name default : string) : string :=
  match getenv w name with
  | Some v => v
  | None => default
  end.

(* ================================================================== *)
(** ** src/main.py *)
(* ================================================================== *)

Module Main.

Definition sentinel : string := "No specific action items found".

Definition output_filename : string := "recorded_audio.wav".

(** [# --- 1. Record Audio ---]: yields [audio_file_to_process]. *)
Definition record_stage (w : World) : IO string :=
  emit (Input "Enter recording duration in seconds (e.g., 5, or 0 to skip recording and use existing 'recorded_audio.wav'): ") ;;
  duration <-
    match typed_duration w with
    | Returns d => ret d
    | Throws (ValueError _) =>
        print "Invalid duration entered. Defaulting to 5 seconds." ;;
        ret 5
    | Throws e => raise e
    end ;;
  if 0 <? duration then
    print (PyStr.nl ++ "Preparing to record for " ++ PyStr.of_int duration
           ++ " seconds. Speak into your microphone.") ;;
    audio_file_to_process <-
      AudioRecorder.record_audio (recorder w) duration output_filename ;;
    print ("Audio recorded and saved to " ++ audio_file_to_process) ;;
    ret audio_file_to_process
  else if path_exists w output_filename then
    print (PyStr.nl ++ "Skipping recording. Using existing file: "
           ++ output_filename) ;;
    ret output_filename
  else
    print (PyStr.nl ++ "Skipping recording, but " ++ output_filename
           ++ " not found. Please record audio first or place the file.") ;;
    exit.

(** [# --- 2. Transcribe Audio using Whisper ---]: yields [transcript]. *)
Definition transcribe_stage (w : World) (audio_file_to_process : string)
    : IO string :=
  print (PyStr.nl ++ "--- Initializing Whisper Transcriber ---") ;;
  transcriber <- Transcriber.init (speech w) "tiny" ;;
  if Transcriber.model transcriber then
    print (PyStr.nl ++ "--- Transcribing Audio: " ++ audio_file_to_process
           ++ " ---") ;;
    transcript_or_error <-
      Transcriber.transcribe_audio (speech w) (path_exists w) transcriber
        audio_file_to_process ;;
    if PyStr.contains "Error:" transcript_or_error
       || negb (PyStr.truthy (PyStr.strip transcript_or_error)) then
      print ("Transcription result: " ++ transcript_or_error) ;;
      print "Cannot proceed without a valid transcript." ;;
      exit
    else
      print (PyStr.nl ++ "--- Transcript ---") ;;
      print transcript_or_error ;;
      print "------------------" ;;
      ret transcript_or_error
  else
    print "Whisper model not loaded. Cannot transcribe. Please check installation and model name." ;;
    print "You can try running 'python src/transcriber.py' directly to debug Whisper setup." ;;
    exit.

(** [# --- 3. Process Text using Ollama ---]: yields [action_items]. *)
Definition process_stage (w : World) (transcript : string) : IO string :=
  let ollama_host := getenv w "OLLAMA_HOST" in
  let ollama_model := getenv_default w "OLLAMA_MODEL" "llama2" in
  print (PyStr.nl ++ "--- Initializing Ollama Text Processor (Model: "
         ++ ollama_model ++ ") ---") ;;
  text_processor <- TextProcessor.init (llm w) ollama_model ollama_host ;;
  summary <- TextProcessor.summarize_text (llm w) text_processor transcript ;;
  print (PyStr.nl ++ "--- Summary (from Ollama) ---") ;;
  print summary ;;
  print "-----------------------------" ;;
  action_items <-
    TextProcessor.generate_action_items (llm w) text_processor transcript ;;
  print (PyStr.nl ++ "--- Action Items (from Ollama) ---") ;;
  print action_items ;;
  print "----------------------------------" ;;
  ret action_items.

(** The condition of line 82. *)
Definition postable (action_items : string) : bool :=
  PyStr.truthy action_items
  && negb (PyStr.contains "Error:" action_items)
  && negb (PyStr.contains sentinel action_items).

(** [# --- 4. Post Action Items to MS Teams ---].  The [input] of line 85
    stands before the [try] of line 87: what it raises leaves the stage. *)
Definition post_stage (w : World) (audio_file_to_process action_items : string)
    : IO unit :=
  if postable action_items then
    match getenv w "MS_TEAMS_WEBHOOK_URL" with
    | Some (String _ _ as teams_webhook_url) =>
        typed <-
          call (Input "Do you want to post these action items to MS Teams? (yes/no): ")
               (typed_choice w) ;;
        let post_choice := PyStr.lower (PyStr.strip typed) in
        if (post_choice =? "yes")%string then
          try_except
            (poster <- TeamsPoster.init teams_webhook_url ;;
             let audio_basename := PyStr.basename audio_file_to_process in
             let teams_title := "Action Items from: " ++ audio_basename in
             post_successful <-
               TeamsPoster.post_message (net w) poster (Some teams_title)
                 action_items ;;
             if negb post_successful then
               print "There was an issue posting to MS Teams. Please check the logs above and your webhook URL."
             else ret tt)
            (fun e =>
               match e with
               | ValueError _ =>
                   print ("Error initializing Teams Poster: " ++ str_exn e)
               | _ =>
                   print ("An unexpected error occurred during Teams posting: "
                          ++ str_exn e)
               end)
        else print "Skipping MS Teams post."
    | _ =>
        print (PyStr.nl ++ "MS_TEAMS_WEBHOOK_URL not set. Skipping Teams posting.") ;;
        print "To enable, set MS_TEAMS_WEBHOOK_URL in your .env file or environment variables."
    end
  else if PyStr.contains sentinel action_items then
    print (PyStr.nl ++ "No specific action items were generated, so nothing to post to MS Teams.")
  else
    print (PyStr.nl ++ "No valid action items generated or an error occurred. Skipping MS Teams posting.").

Definition banner : IO unit :=
  print "Audio Processor Application" ;;
  print "---------------------------" ;;
  print "IMPORTANT: Ensure 'openai-whisper' is installed and 'ffmpeg' is available in your system PATH." ;;
  print "Ensure your Ollama instance is running and the specified model (e.g., 'llama2') is pulled." ;;
  print ("For MS Teams posting, ensure MS_TEAMS_WEBHOOK_URL is set in your .env file or environment." ++ PyStr.nl).

(** [main] *)
Definition main (w : World) : IO unit :=
  banner ;;
  audio_file_to_process <- record_stage w ;;
  transcript <- transcribe_stage w audio_file_to_process ;;
  (if negb (PyStr.truthy transcript) || PyStr.isspace transcript then
     print (PyStr.nl ++ "No valid transcript obtained. Skipping text processing and Teams posting.")
   else
     action_items <- process_stage w transcript ;;
     post_stage w audio_file_to_process action_items) ;;
  print (PyStr.nl ++ "Application processing complete.").

End Main.

(* ================================================================== *)
(** ** app.py *)
(* ================================================================== *)

(** app.py does not compile.  Its "Process Audio" handler opens at line
    105 with [if st.button(...):]; lines 106-108 are indented by four
    spaces, line 109 and what follows by eight.  Python rejects an
    indentation that grows where no block was opened, and it compiles a
    file as a whole before it runs any of it, so no statement of app.py is
    ever executed.  What is modelled here is that rule and the lines it
    trips on. *)

Module App.

(** A logical line as the tokenizer sees it. *)
Record source_line : Type := mkLine {
  lineno : Z;            (* its number in app.py *)
  indent : nat;          (* its leading spaces *)
  opens_block : bool     (* it ends with a colon *)
}.

(** Lines 105-109: the header of the handler and the four assignments that
    clear the session state. *)
Definition handler_head : list source_line :=
  [mkLine 105 0 true;
   mkLine 106 4 false;
   mkLine 107 4 false;
   mkLine 108 4 false;
   mkLine 109 8 false].

Inductive indentation_error : Type :=
| UnexpectedIndent (line : Z)
    (* deeper than the block it stands in, and no colon before it *)
| ExpectedIndentedBlock (line : Z)
    (* a colon before it, and not deeper *)
| UnmatchedDedent (line : Z).
    (* shallower, at a level no enclosing block has *)

(** Pop the stack of open indentation levels down to level [n]. *)
Fixpoint dedent_to (n : nat) (stack : list nat) : option (list nat) :=
  match stack with
  | [] => None
  | top :: below =>
      if (n =? top)%nat then Some stack
      else if (top <? n)%nat then None
      else dedent_to n below
  end.

(** Python's indentation rule, line by line.  [stack] holds the levels of
    the open blocks, innermost first; [block_expected] says that the line
    before ended with a colon.  Only the lines given are judged: what the
    end of the file would add is not modelled. *)
Fixpoint check_indentation (stack : list nat) (block_expected : bool)
    (lines : list source_line) : option indentation_error :=
  match lines with
  | [] => None
  | l :: rest =>
      if (hd 0%nat stack <? indent l)%nat then
        if block_expected
        then check_indentation (indent l :: stack) (opens_block l) rest
        else Some (UnexpectedIndent (lineno l))
      else if block_expected then Some (ExpectedIndentedBlock (lineno l))
      else
        match dedent_to (indent l) stack with
        | Some stack' => check_indentation stack' (opens_block l) rest
        | None => Some (UnmatchedDedent (lineno l))
        end
  end.

End App.

(* ================================================================== *)
(** ** Observations on traces and answers *)
(* ================================================================== *)

(** The events that reach the generative model, the speech model and the
    webhook. *)
Definition is_llm_event (ev : event) : bool :=
  match ev with
  | NewClient _ | Show _ | Chat _ _ => true
  | _ => false
  end.

Definition is_speech_call (ev : event) : bool :=
  match ev with
  | Transcribe _ => true
  | _ => false
  end.

Definition is_http_post (ev : event) : bool :=
  match ev with
  | HttpPost _ _ _ _ => true
  | _ => false
  end.

Definition http_posts (t : trace) : list event := filter is_http_post t.
Definition llm_events (t : trace) : list event := filter is_llm_event t.
Definition speech_calls (t : trace) : list event := filter is_speech_call t.

(** The body test of teams_poster.py line 18. *)
Definition nothing_to_send (message_text : string) : bool :=
  negb (PyStr.truthy message_text) || PyStr.isspace message_text.

(** The request of teams_poster.py line 56. *)
Definition the_request (self : TeamsPoster.t) (title : option string)
    (message_text : string) : event :=
  HttpPost (TeamsPoster.webhook_url self) TeamsPoster.headers
    (Json.dumps (TeamsPoster.payload title message_text)) 10.

(** What the network answers to it. *)
Definition the_answer (net : TeamsPoster.network) (self : TeamsPoster.t)
    (title : option string) (message_text : string)
    : answer TeamsPoster.Response :=
  net (TeamsPoster.webhook_url self) TeamsPoster.headers
    (Json.dumps (TeamsPoster.payload title message_text)) 10.

(** The statuses on which [raise_for_status] raises. *)
Definition error_status (r : TeamsPoster.Response) : bool :=
  (400 <=? TeamsPoster.status_code r) && (TeamsPoster.status_code r <? 600).

(** teams_poster.py lines 57-73 as one test on the answer. *)
Definition delivered (a : answer TeamsPoster.Response) : bool :=
  match a with
  | Returns r =>
      negb (error_status r)
      && ((TeamsPoster.status_code r =? 200)
          || (TeamsPoster.text r =? "1")%string)
  | Throws _ => false
  end.

(** The card shape of the webhook boundary, field by field. *)
Definition title_block (title : option string) : Json.json :=
  Json.JObj [("type", Json.JStr "TextBlock");
             ("text", TeamsPoster.json_of_title title);
             ("weight", Json.JStr "bolder");
             ("size", Json.JStr "medium")].



(* ================================================================== *)
(** ** Sample surroundings *)
(* ================================================================== *)

Definition example_url : string := "https://example.test/hook".

Definition example_poster : TeamsPoster.t := TeamsPoster.mk example_url.

(** A webhook that answers status 500 with the body "1". *)
Definition answer_500_one : TeamsPoster.Response :=
  TeamsPoster.mkResponse 500 "1" "Internal Server Error" example_url.

Definition net_500_one : TeamsPoster.network :=
  fun _ _ _ _ => Returns answer_500_one.

(** A webhook that answers status 202 with the body "1". *)
Definition net_202_one : TeamsPoster.network :=
  fun _ _ _ _ => Returns (TeamsPoster.mkResponse 202 "1" "Accepted" example_url).

(** A webhook that answers status 200 with the body "1". *)
Definition net_200 : TeamsPoster.network :=
  fun _ _ _ _ => Returns (TeamsPoster.mkResponse 200 "1" "OK" example_url).

(** A generative model that knows no model: every call is answered with
    ollama's ResponseError 404. *)
Definition llm_model_missing : TextProcessor.ollama :=
  TextProcessor.mkOllama
    (fun _ => Returns tt)
    (fun _ => "http://127.0.0.1:11434")
    (fun _ => Throws (ResponseError 404 "model 'llama2' not found"))
    (fun _ _ => Throws (ResponseError 404 "model 'llama2' not found")).

(** A generative model that answers every prompt with the same text. *)
Definition llm_saying (reply : string) : TextProcessor.ollama :=
  TextProcessor.mkOllama
    (fun _ => Returns tt)
    (fun _ => "http://127.0.0.1:11434")
    (fun _ => Returns tt)
    (fun _ _ => Returns reply).

Definition example_processor : TextProcessor.t :=
  TextProcessor.mk "llama2" None.

(** A speech model that loads and hears the same text in every file. *)
Definition speech_hearing (heard : string) : Transcriber.whisper :=
  Transcriber.mkWhisper true (fun _ => Returns tt) (fun _ => Returns heard).

(** Only the webhook URL is set in the environment. *)
Definition env_with_webhook (name : string) : option string :=
  if (name =? "MS_TEAMS_WEBHOOK_URL")%string then Some example_url else None.

(** Surroundings in which the recording is skipped (duration 0), every file
    exists, the webhook is configured and answers 200, the speech model
    hears [heard], the generative model is [lib] and the user types
    [choice] at the yes/no prompt. *)
Definition sample_world (heard : string) (lib : TextProcessor.ollama)
    (choice : string) : World :=
  mkWorld (Returns 0) (Returns choice) (fun _ => true) env_with_webhook
          (fun _ _ => Returns tt) (speech_hearing heard) lib net_200.

(** The same surroundings with no file on disk. *)
Definition sample_world_no_file (heard : string) (lib : TextProcessor.ollama)
    (choice : string) : World :=
  mkWorld (Returns 3) (Returns choice) (fun _ => false) env_with_webhook
          (fun _ _ => Returns tt) (speech_hearing heard) lib net_200.

(** What [transcribe_audio] answers for a missing file. *)
Definition file_not_found (path : string) : string :=
  "Error: Audio file " ++ path ++ " not found.".

(** The speech model hears " hi", with a leading blank. *)
Definition world_leading_blank : World :=
  sample_world " hi" (llm_saying "- say hi") "no".

(** The generative model is down and the user agrees to post. *)
Definition world_model_missing : World :=
  sample_world "Mike will fix the login bug by Friday." llm_model_missing "yes".

Definition model_missing_message : string :=
  "Error during action item generation with Ollama: 404 - model 'llama2' not found".

(** The generative model answers the sentinel in lower case and the user
    agrees to post. *)
Definition world_lowercase_sentinel : World :=
  sample_world "The sky is blue." (llm_saying "no specific action items found.")
    "yes".

(* ================================================================== *)
(** ** Further observations and surroundings *)
(* ================================================================== *)

(** The collaborator returned rather than raised. *)
Definition is_returns {A : Type} (a : answer A) : bool :=
  match a with
  | Returns _ => true
  | Throws _ => false
  end.

(** [except NameError] does not apply. *)
Definition not_name_error (e : exn) : bool :=
  match e with
  | NameError _ => false
  | _ => true
  end.

(** [except ollama.ResponseError] applies. *)
Definition is_response_error (e : exn) : bool :=
  match e with
  | ResponseError _ _ => true
  | _ => false
  end.

Definition is_prompt (ev : event) : bool :=
  match ev with
  | Input _ => true
  | _ => false
  end.

Definition is_model_load (ev : event) : bool :=
  match ev with
  | LoadModel _ => true
  | _ => false
  end.

Definition is_recording (ev : event) : bool :=
  match ev with
  | RecordAudio _ _ => true
  | _ => false
  end.

Definition is_chat (ev : event) : bool :=
  match ev with
  | Chat _ _ => true
  | _ => false
  end.

Definition prompts (t : trace) : list event := filter is_prompt t.
Definition model_loads (t : trace) : list event := filter is_model_load t.
Definition recordings (t : trace) : list event := filter is_recording t.
Definition chats (t : trace) : list event := filter is_chat t.

(** What [transcribe_audio] answers when the speech model raises [e]
    and the message does not mention ffmpeg. *)
Definition whisper_failure (e : exn) : string :=
  "Error during Whisper transcription: " ++ str_exn e.

(** The webhook URL of the environment, empty when unset: what main.py
    tests at line 84. *)
Definition configured_webhook (w : World) : string :=
  match getenv w "MS_TEAMS_WEBHOOK_URL" with
  | Some (String _ _ as v) => v
  | _ => EmptyString
  end.

(** A speech model that loads and then fails on every file. *)
Definition speech_failing (msg : string) : Transcriber.whisper :=
  Transcriber.mkWhisper true (fun _ => Returns tt)
    (fun _ => Throws (OtherException msg)).

(** As [sample_world], with the speech library replaced. *)
Definition with_speech (lib : Transcriber.whisper) (w : World) : World :=
  mkWorld (typed_duration w) (typed_choice w) (path_exists w) (getenv w)
          (recorder w) lib (llm w) (net w).

(** As [w], with another answer at the duration prompt. *)
Definition with_duration (d : answer Z) (w : World) : World :=
  mkWorld d (typed_choice w) (path_exists w) (getenv w)
          (recorder w) (speech w) (llm w) (net w).

(** The speech model loads, then fails on the file. *)
Definition world_speech_failing : World :=
  with_speech (speech_failing "audio codec failed")
    (sample_world "unused" (llm_saying "- Call Mike") "no").

(** A generative model whose chat fails with an exception that is not a
    ResponseError. *)
Definition llm_chat_failing (msg : string) : TextProcessor.ollama :=
  TextProcessor.mkOllama
    (fun _ => Returns tt)
    (fun _ => "http://127.0.0.1:11434")
    (fun _ => Returns tt)
    (fun _ _ => Throws (OtherException msg)).

(** What the two operations answer when [client.chat] raises [e], an
    exception other than ResponseError. *)
Definition unexpected_summary_error (e : exn) : string :=
  "An unexpected error occurred during summarization: " ++ str_exn e.

Definition unexpected_action_items_error (e : exn) : string :=
  "An unexpected error occurred during action item generation: "
  ++ str_exn e.

(** The user answers 0 at the duration prompt and no file is on disk. *)
Definition world_nothing_to_process : World :=
  with_duration (Returns 0)
    (sample_world_no_file "unused" (llm_saying "- Call Mike") "no").

(** What [record_stage] records, read off the answer at the prompt. *)
Definition expected_recordings (w : World) : list event :=
  match typed_duration w with
  | Returns d =>
      if 0 <? d then [RecordAudio d Main.output_filename] else []
  | Throws (ValueError _) => [RecordAudio 5 Main.output_filename]
  | Throws _ => []
  end.

Definition post_question : string :=
  "Do you want to post these action items to MS Teams? (yes/no): ".

(** The host the client is created with: an empty host counts as none. *)
Definition client_host (ollama_host : option string) : option string :=
  match ollama_host with
  | Some (String _ _ as h) => Some h
  | _ => None
  end.

(** The exception that leaves [TextProcessor.__init__], if any: whatever
    [ollama.Client] raises, or what the availability check raises unless it
    is a ResponseError. *)
Definition constructor_failure (lib : TextProcessor.ollama)
    (model : string) (ollama_host : option string) : option exn :=
  match TextProcessor.new_client lib (client_host ollama_host) with
  | Throws e => Some e
  | Returns _ =>
      match TextProcessor.show lib model with
      | Throws e => if is_response_error e then None else Some e
      | Returns _ => None
      end
  end.

(** The model and the host that main.py binds. *)
Definition main_model (w : World) : string :=
  getenv_default w "OLLAMA_MODEL" "llama2".

Definition main_host (w : World) : option string := getenv w "OLLAMA_HOST".

(** The user's answer at the yes/no prompt of main.py, as lines 85-86 read
    it, when the prompt returns one. *)
Definition answered_yes (w : World) : bool :=
  match typed_choice w with
  | Returns typed => (PyStr.lower (PyStr.strip typed) =? "yes")%string
  | Throws _ => false
  end.

(** Stage 4 of main.py reaches its prompt. *)
Definition asks_user (w : World) (action_items : string) : bool :=
  Main.postable action_items && PyStr.truthy (configured_webhook w).

(** A client library that rejects every explicit host. *)
Definition llm_rejecting_host : TextProcessor.ollama :=
  TextProcessor.mkOllama
    (fun host =>
       match host with
       | Some _ => Throws (ValueError "invalid port")
       | None => Returns tt
       end)
    (fun _ => "http://127.0.0.1:11434")
    (fun _ => Returns tt)
    (fun _ _ => Returns "- Call Mike").

(** The webhook URL and a host are set in the environment. *)
Definition env_with_host (name : string) : option string :=
  if (name =? "OLLAMA_HOST")%string then Some "localhost:abc"
  else env_with_webhook name.

(** OLLAMA_HOST names a host that the client library rejects. *)
Definition world_bad_host : World :=
  mkWorld (Returns 0) (Returns "yes") (fun _ => true) env_with_host
          (fun _ _ => Returns tt)
          (speech_hearing "Mike will fix the login bug by Friday.")
          llm_rejecting_host net_200.

(* ================================================================== *)
(** * Properties *)
(* ================================================================== *)

(** ** Strings *)

Section StringFacts.

Lemma contains_unfold (needle s : string) :
  PyStr.contains needle s
  = prefix needle s
    || match s with
       | EmptyString => false
       | String _ t => PyStr.contains needle t
       end.
Proof. destruct s; reflexivity. Qed.

Lemma prefix_cons (a b : ascii) (p s : string) :
  prefix (String a p) (String b s)
  = if ascii_dec a b then prefix p s else false.
Proof. reflexivity. Qed.

Lemma prefix_app (p s : string) : prefix p (p ++ s) = true.
Proof.
  induction p as [|c p IH].
  - destruct s; reflexivity.
  - cbn [append]. rewrite prefix_cons.
    destruct (ascii_dec c c) as [_|ne]; [exact IH | now elim ne].
Qed.

Lemma contains_prefix (p s : string) :
  prefix p s = true -> PyStr.contains p s = true.
Proof. intros H. rewrite contains_unfold, H. reflexivity. Qed.

(** [p in a + p + b] *)
Lemma contains_app (p a b : string) : PyStr.contains p (a ++ p ++ b) = true.
Proof.
  induction a as [|c a IH]; simpl.
  - apply contains_prefix, prefix_app.
  - rewrite IH. apply orb_true_r.
Qed.

Lemma lstrip_all_whitespace (s : string) :
  PyStr.all_whitespace s = true -> PyStr.lstrip s = EmptyString.
Proof.
  induction s as [|c s IH]; simpl; [reflexivity|].
  intros H. apply andb_true_iff in H as [Hc Hs].
  rewrite Hc. auto.
Qed.

Lemma strip_isspace (s : string) :
  PyStr.isspace s = true -> PyStr.strip s = EmptyString.
Proof.
  destruct s as [|c s]; [discriminate|].
  unfold PyStr.isspace, PyStr.strip. intros H.
  rewrite (lstrip_all_whitespace _ H). reflexivity.
Qed.

(** A string with something left after [strip] is neither empty nor blank. *)
Lemma strip_truthy (s : string) :
  PyStr.truthy (PyStr.strip s) = true ->
  PyStr.truthy s = true /\ PyStr.isspace s = false.
Proof.
  intros H. split.
  - destruct s; [discriminate H | reflexivity].
  - destruct (PyStr.isspace s) eqn:E; [|reflexivity].
    rewrite (strip_isspace _ E) in H. discriminate H.
Qed.

End StringFacts.

(** ** Computations *)

Section IOFacts.

Context {A B : Type}.

(** Trace and result of a sequence, in terms of its parts. *)
Lemma run_bind_trace (m : IO A) (k : A -> IO B) :
  run_trace (bind m k)
  = (run_trace m
     ++ match run_result m with
        | Done a => run_trace (k a)
        | _ => []
        end)%list.
Proof.
  destruct m as [t [a| |e]]; cbn; [destruct (k a); reflexivity | |];
    now rewrite app_nil_r.
Qed.

Lemma run_bind_result (m : IO A) (k : A -> IO B) :
  run_result (bind m k)
  = match run_result m with
    | Done a => run_result (k a)
    | Exit => Exit
    | Raised e => Raised e
    end.
Proof.
  destruct m as [t [a| |e]]; cbn; [destruct (k a); reflexivity | |];
    reflexivity.
Qed.

End IOFacts.

(** Membership of an event in a computed trace. *)
Ltac find_event := repeat (first [left; reflexivity | right]).

(** Split the observation filters along the appends of a trace. *)
Ltac split_filters :=
  unfold llm_events, speech_calls, http_posts in *;
  rewrite ?filter_app.

(** ** TeamsPoster.post_message *)

Section PostMessage.

Import TeamsPoster.

Variable net : network.
Variable self : TeamsPoster.t.

Lemma raise_for_status_error (r : Response) :
  error_status r = true ->
  exists msg, raise_for_status r = ([], Raised (HTTPError msg)).
Proof.
  unfold error_status, raise_for_status. intros H.
  apply andb_true_iff in H as [H1 H2]. rewrite H1. cbn [andb].
  destruct (status_code r <? 500) eqn:E5; [eexists; reflexivity|].
  assert (E : (500 <=? status_code r) = true) by lia.
  rewrite E, H2. eexists; reflexivity.
Qed.

Lemma raise_for_status_ok (r : Response) :
  error_status r = false -> raise_for_status r = ([], Done tt).
Proof.
  unfold error_status, raise_for_status. intros H.
  destruct (400 <=? status_code r) eqn:E4; cbn [andb] in *.
  - assert (E5 : (status_code r <? 500) = false) by lia.
    assert (E : (500 <=? status_code r) = true) by lia.
    rewrite E5, E, H. reflexivity.
  - assert (E : (500 <=? status_code r) = false) by lia.
    rewrite E. reflexivity.
Qed.

(** With something to send, [post_message] announces the post, performs
    exactly one request, logs the outcome on the console and returns
    whether the answer counts as delivered. It never raises. *)
Lemma post_message_sends (title : option string) (message_text : string) :
  nothing_to_send message_text = false ->
  exists log,
    post_message net self title message_text
    = (Print (PyStr.nl ++ "Posting message to MS Teams...")
       :: the_request self title message_text :: log,
       Done (delivered (the_answer net self title message_text)))
    /\ http_posts log = [].
Proof.
  unfold nothing_to_send, post_message, the_request, the_answer. intros ->.
  set (data := Json.dumps (payload title message_text)).
  destruct (net (webhook_url self) headers data 10) as [r|e] eqn:Enet.
  - destruct (error_status r) eqn:Eerr.
    + destruct (raise_for_status_error r Eerr) as [msg Hr].
      cbn. rewrite Hr. cbn. rewrite Eerr. cbn. eexists. split; reflexivity.
    + cbn. rewrite (raise_for_status_ok r Eerr). cbn. rewrite Eerr. cbn.
      destruct ((status_code r =? 200) || (text r =? "1")%string);
        cbn; eexists; split; reflexivity.
  - destruct e; cbn; eexists; split; reflexivity.
Qed.

End PostMessage.

Section PostMessageClaims.

Import TeamsPoster.

Lemma http_posts_of_send (net : network) (self : TeamsPoster.t)
    (title : option string) (message_text : string) :
  nothing_to_send message_text = false ->
  http_posts (run_trace (post_message net self title message_text))
  = [the_request self title message_text].
Proof.
  intros H.
  destruct (post_message_sends net self title message_text H)
    as (log & -> & Hlog).
  unfold http_posts in *. cbn. rewrite Hlog. reflexivity.
Qed.

Lemma nothing_to_send_spec (message_text : string) :
  nothing_to_send message_text = true
  <-> message_text = EmptyString \/ PyStr.isspace message_text = true.
Proof.
  unfold nothing_to_send. rewrite orb_true_iff. split.
  - intros [H|H]; [left | now right].
    destruct message_text; [reflexivity | discriminate H].
  - intros [->|H]; [now left | now right].
Qed.

(** C1, as stated, fails: the body "1" under status 500 is not a success,
    so "true iff status 200 or body 1" does not hold of that exchange. *)
Lemma post_message_body_one_status_500 :
  ~ (run_result (post_message net_500_one example_poster (Some "Title")
                   "Call Mike")
     = Done true
     <-> (status_code answer_500_one = 200
          \/ text answer_500_one = "1")).
Proof.
  intros [_ H].
  assert (E : run_result (post_message net_500_one example_poster
                            (Some "Title") "Call Mike") = Done true)
    by (apply H; right; reflexivity).
  vm_compute in E. discriminate E.
Qed.

(** C1 (amended): with a non-empty, non-whitespace body, [post_message]
    returns a boolean and never raises; it returns true exactly when the
    exchange produced a response whose status is outside 400..599 and whose
    status is 200 or whose body is exactly "1". Every 4xx/5xx status
    (whatever its body), network failure or timeout gives false. *)
Theorem post_message_success_iff (net : network) (self : TeamsPoster.t)
    (title : option string) (message_text : string) :
  nothing_to_send message_text = false ->
  exists b : bool,
    run_result (post_message net self title message_text) = Done b
    /\ (b = true <->
        exists r : Response,
          the_answer net self title message_text = Returns r
          /\ ~ (400 <= status_code r < 600)
          /\ (status_code r = 200 \/ text r = "1")).
Proof.
  intros H.
  destruct (post_message_sends net self title message_text H)
    as (log & -> & _).
  eexists. split; [reflexivity|].
  destruct (the_answer net self title message_text) as [r|e]; cbn [delivered].
  - rewrite andb_true_iff, negb_true_iff, orb_true_iff.
    unfold error_status. rewrite Z.eqb_eq, String.eqb_eq. split.
    + intros [Hs Hd]. exists r. repeat split; [lia | exact Hd].
    + intros (r' & [= <-] & Hs & Hd). split; [lia | exact Hd].
  - split; [discriminate | intros (r & [=] & _)].
Qed.

Lemma post_message_success_iff_witness :
  nothing_to_send "Call Mike" = false
  /\ exists b : bool,
       run_result (post_message net_202_one example_poster (Some "Title")
                     "Call Mike") = Done b
       /\ (b = true <->
           exists r : Response,
             the_answer net_202_one example_poster (Some "Title") "Call Mike"
             = Returns r
             /\ ~ (400 <= status_code r < 600)
             /\ (status_code r = 200 \/ text r = "1")).
Proof.
  split; [reflexivity|].
  apply (post_message_success_iff net_202_one example_poster (Some "Title")
           "Call Mike").
  reflexivity.
Defined.

(** C7: with an empty or whitespace-only body [post_message] prints that
    there is nothing to post and returns false: no request leaves, nothing
    is raised, and the console line differs from that of every call that
    did attempt a delivery. *)
Theorem post_message_empty_body_noop (net : network) (self : TeamsPoster.t)
    (title : option string) (message_text : string) :
  message_text = EmptyString \/ PyStr.isspace message_text = true ->
  post_message net self title message_text
  = ([Print "Message text is empty. Nothing to post to Teams."], Done false)
  /\ http_posts (run_trace (post_message net self title message_text)) = []
  /\ forall (net' : network) (title' : option string) (sent : string),
       nothing_to_send sent = false ->
       run_trace (post_message net' self title' sent)
       <> run_trace (post_message net self title message_text).
Proof.
  intros H. apply nothing_to_send_spec in H.
  assert (E : post_message net self title message_text
              = ([Print "Message text is empty. Nothing to post to Teams."],
                 Done false)).
  { unfold post_message. fold (nothing_to_send message_text).
    rewrite H. reflexivity. }
  rewrite E. repeat split.
  intros net' title' sent Hs.
  destruct (post_message_sends net' self title' sent Hs) as (log & -> & _).
  cbn. discriminate.
Qed.

Lemma post_message_empty_body_noop_witness :
  ("   " = EmptyString \/ PyStr.isspace "   " = true)
  /\ post_message net_202_one example_poster (Some "Title") "   "
     = ([Print "Message text is empty. Nothing to post to Teams."],
        Done false).
Proof.
  split; [right; reflexivity|].
  apply (post_message_empty_body_noop net_202_one example_poster
           (Some "Title") "   ").
  right; reflexivity.
Defined.

End PostMessageClaims.

(** ** The card and the request *)

Section Card.

Import TeamsPoster.




(** C10: the title is never looked at. With a non-empty, non-whitespace
    body the request is made for every title, a string (empty and blank
    ones included) or [None] alike, and the first, bold medium TextBlock of
    the card carries that title as it was given. *)
Theorem post_message_title_unchecked (net : network) (self : TeamsPoster.t)
    (title : option string) (message_text : string) :
  nothing_to_send message_text = false ->
  http_posts (run_trace (post_message net self title message_text))
  = [HttpPost (webhook_url self) headers
       (Json.dumps (payload title message_text)) 10]
  /\ (exists attachment content second : Json.json,
        Json.get "attachments" (payload title message_text)
        = Some (Json.JArr [attachment])
        /\ Json.get "content" attachment = Some content
        /\ Json.get "body" content
           = Some (Json.JArr [title_block title; second]))
  /\ Json.get "text" (title_block title)
     = Some match title with
            | Some s => Json.JStr s
            | None => Json.JNull
            end
  /\ Json.get "weight" (title_block title) = Some (Json.JStr "bolder")
  /\ Json.get "size" (title_block title) = Some (Json.JStr "medium").
Proof.
  intros H. split; [exact (http_posts_of_send net self title message_text H)|].
  split.
  - do 3 eexists. repeat split; reflexivity.
  - repeat split; destruct title; reflexivity.
Qed.

Lemma post_message_title_unchecked_witness :
  nothing_to_send "Call Mike" = false
  /\ http_posts (run_trace (post_message net_200 example_poster None
                              "Call Mike"))
     = [HttpPost example_url headers
          (Json.dumps (payload None "Call Mike")) 10].
Proof.
  split; [reflexivity|].
  apply (post_message_title_unchecked net_200 example_poster None "Call Mike").
  reflexivity.
Defined.

End Card.


(** ** TextProcessor *)

Section TextProcessorClaims.

Import TextProcessor.

(** Neither operation lets an exception out. *)
Lemma summarize_text_returns (lib : ollama) (self : TextProcessor.t)
    (text : string) :
  exists s, run_result (summarize_text lib self text) = Done s.
Proof.
  unfold summarize_text.
  destruct (negb (PyStr.truthy text) || PyStr.isspace text);
    [eexists; reflexivity|].
  destruct (chat lib (ollama_model_name self) (summarize_prompt text))
    as [s|e]; cbn; [eexists; reflexivity|].
  destruct e; eexists; reflexivity.
Qed.

Lemma generate_action_items_returns (lib : ollama) (self : TextProcessor.t)
    (text : string) :
  exists s, run_result (generate_action_items lib self text) = Done s.
Proof.
  unfold generate_action_items.
  destruct (negb (PyStr.truthy text) || PyStr.isspace text);
    [eexists; reflexivity|].
  destruct (chat lib (ollama_model_name self) (action_items_prompt text))
    as [s|e]; cbn; [eexists; reflexivity|].
  destruct e; eexists; reflexivity.
Qed.

(** A ResponseError of the client comes back as a message that begins
    "Error during", whatever the status and the error text. *)
Lemma generate_action_items_response_error (lib : ollama)
    (self : TextProcessor.t) (text : string) (status : Z) (error : string) :
  nothing_to_send text = false ->
  chat lib (ollama_model_name self) (action_items_prompt text)
  = Throws (ResponseError status error) ->
  run_result (generate_action_items lib self text)
  = Done ("Error during action item generation with Ollama: "
          ++ PyStr.of_int status ++ " - " ++ error).
Proof.
  unfold nothing_to_send, generate_action_items. intros -> Hc.
  cbn [bind print emit]. rewrite Hc. reflexivity.
Qed.

(** C4: on an empty or whitespace-only text both operations return, without
    raising, a string that starts with "Error:" and says the input is empty,
    and their trace is empty: the client is not called. *)
Theorem text_processor_rejects_empty_input (lib : ollama)
    (self : TextProcessor.t) (text : string) :
  text = EmptyString \/ PyStr.isspace text = true ->
  summarize_text lib self text
  = ([], Done "Error: Input text is empty, cannot summarize.")
  /\ generate_action_items lib self text
     = ([], Done "Error: Input text is empty, cannot generate action items.")
  /\ PyStr.startswith "Error:" "Error: Input text is empty, cannot summarize."
     = true
  /\ PyStr.startswith "Error:"
       "Error: Input text is empty, cannot generate action items." = true
  /\ llm_events (run_trace (summarize_text lib self text)) = []
  /\ llm_events (run_trace (generate_action_items lib self text)) = [].
Proof.
  intros H. apply nothing_to_send_spec in H. unfold nothing_to_send in H.
  unfold summarize_text, generate_action_items. rewrite H.
  repeat split.
Qed.

Lemma text_processor_rejects_empty_input_witness :
  (PyStr.nl = EmptyString \/ PyStr.isspace PyStr.nl = true)
  /\ summarize_text (llm_saying "- Call Mike") example_processor PyStr.nl
     = ([], Done "Error: Input text is empty, cannot summarize.").
Proof.
  split; [right; reflexivity|].
  apply (text_processor_rejects_empty_input (llm_saying "- Call Mike")
           example_processor PyStr.nl).
  right; reflexivity.
Defined.

End TextProcessorClaims.

(** ** Transcriber and the pipeline before the TextProcessor *)

Section Transcription.

(** The constructor never raises and talks to the speech library only. *)
Lemma transcriber_init_cases (lib : Transcriber.whisper) (name : string) :
  exists (log : trace) (loaded : bool),
    Transcriber.init lib name = (log, Done (Transcriber.mk name loaded))
    /\ llm_events log = [] /\ speech_calls log = [] /\ http_posts log = []
    /\ (loaded = true ->
        Transcriber.imported lib = true
        /\ Transcriber.load_model lib name = Returns tt).
Proof.
  unfold Transcriber.init.
  destruct (Transcriber.imported lib).
  - destruct (Transcriber.load_model lib name) as [[]|e]; cbn;
      do 2 eexists; repeat split; try reflexivity; discriminate.
  - do 2 eexists; repeat split; try reflexivity; discriminate.
Qed.

Lemma file_not_found_marked (path : string) :
  PyStr.contains "Error:" (file_not_found path) = true.
Proof. apply contains_prefix. reflexivity. Qed.

Lemma file_not_found_names_path (path : string) :
  PyStr.contains path (file_not_found path) = true.
Proof. apply (contains_app path "Error: Audio file " " not found."). Qed.

Lemma transcribe_audio_missing_file (lib : Transcriber.whisper)
    (path_exists : string -> bool) (self : Transcriber.t) (path : string) :
  Transcriber.model self = true ->
  path_exists path = false ->
  Transcriber.transcribe_audio lib path_exists self path
  = ([], Done (file_not_found path)).
Proof.
  intros Hm He. unfold Transcriber.transcribe_audio.
  rewrite Hm, He. reflexivity.
Qed.

(** Stage 2 of main.py stops at a missing file. *)
Lemma transcribe_stage_missing_file (w : World) (path : string) :
  path_exists w path = false ->
  run_result (Main.transcribe_stage w path) = Exit
  /\ llm_events (run_trace (Main.transcribe_stage w path)) = []
  /\ speech_calls (run_trace (Main.transcribe_stage w path)) = [].
Proof.
  intros He. unfold Main.transcribe_stage.
  destruct (transcriber_init_cases (speech w) "tiny")
    as (log & loaded & -> & Hl & Hs & _).
  destruct loaded.
  - cbn [bind print emit Transcriber.model].
    rewrite (transcribe_audio_missing_file (speech w) (path_exists w)
               (Transcriber.mk "tiny" true) path eq_refl He).
    cbn [bind print emit]. rewrite file_not_found_marked.
    cbn [orb bind print emit exit run_result run_trace fst snd].
    split_filters. rewrite Hl, Hs. repeat split.
  - cbn [bind print emit exit Transcriber.model run_result run_trace fst snd].
    split_filters. rewrite Hl, Hs. repeat split.
Qed.

End Transcription.

Section MissingFile.

(** Stage 1 of main.py talks to the user and the recorder only, and the
    file it hands on is always recorded_audio.wav. *)
Lemma record_stage_cases (w : World) :
  llm_events (run_trace (Main.record_stage w)) = []
  /\ http_posts (run_trace (Main.record_stage w)) = []
  /\ (forall p, run_result (Main.record_stage w) = Done p ->
                p = Main.output_filename).
Proof.
  unfold Main.record_stage, AudioRecorder.record_audio.
  destruct (typed_duration w) as [d|e].
  - cbn [bind emit print ret].
    destruct (0 <? d) eqn:Ed.
    + destruct (recorder w d Main.output_filename) as [[]|e]; cbn;
        repeat split; congruence.
    + destruct (path_exists w Main.output_filename); cbn;
        repeat split; congruence.
  - destruct e; cbn; try (repeat split; congruence).
    destruct (recorder w 5 Main.output_filename) as [[]|e]; cbn;
      repeat split; congruence.
Qed.

(** With no recorded_audio.wav on disk, [main] never reaches the
    TextProcessor and does not run to its end. *)
Lemma main_missing_file (w : World) :
  path_exists w Main.output_filename = false ->
  llm_events (run_trace (Main.main w)) = []
  /\ run_result (Main.main w) <> Done tt.
Proof.
  intros He. unfold Main.main.
  destruct (record_stage_cases w) as (Hl & _ & Hp).
  rewrite !run_bind_trace, !run_bind_result.
  change (run_result Main.banner) with (@Done unit tt). cbv iota.
  split_filters. rewrite Hl.
  destruct (run_result (Main.record_stage w)) as [p| |e] eqn:Er.
  - rewrite (Hp p eq_refl).
    destruct (transcribe_stage_missing_file w Main.output_filename He)
      as (Hr & Hl' & _).
    rewrite !run_bind_trace, !run_bind_result, Hr.
    split_filters. rewrite Hl'.
    split; [reflexivity | discriminate].
  - split; [reflexivity | discriminate].
  - split; [reflexivity | discriminate].
Qed.

End MissingFile.

Section MissingFileClaim.

(** C5: for a path at which no file exists, [transcribe_audio] of a loaded
    transcriber returns, with an empty trace (the speech model is not
    called), the string "Error: Audio file <path> not found.", which starts
    with the error marker and contains the path; stage 2 of main.py then
    returns from [main] with no TextProcessor built or called, and so does
    [main] as a whole when the missing file is the one it processes. *)
Theorem missing_audio_file_halts (w : World) (self : Transcriber.t)
    (path : string) :
  Transcriber.model self = true ->
  path_exists w path = false ->
  Transcriber.transcribe_audio (speech w) (path_exists w) self path
  = ([], Done ("Error: Audio file " ++ path ++ " not found."))
  /\ PyStr.startswith "Error:" ("Error: Audio file " ++ path ++ " not found.")
     = true
  /\ PyStr.contains path ("Error: Audio file " ++ path ++ " not found.")
     = true
  /\ run_result (Main.transcribe_stage w path) = Exit
  /\ llm_events (run_trace (Main.transcribe_stage w path)) = []
  /\ speech_calls (run_trace (Main.transcribe_stage w path)) = []
  /\ (path = Main.output_filename ->
      llm_events (run_trace (Main.main w)) = []
      /\ run_result (Main.main w) <> Done tt).
Proof.
  intros Hm He.
  destruct (transcribe_stage_missing_file w path He) as (Hr & Hl & Hs).
  split; [exact (transcribe_audio_missing_file _ _ self path Hm He)|].
  split; [reflexivity|].
  split; [exact (file_not_found_names_path path)|].
  repeat (split; [assumption|]).
  intros ->. exact (main_missing_file w He).
Qed.

Lemma missing_audio_file_halts_witness :
  Transcriber.model (Transcriber.mk "tiny" true) = true
  /\ path_exists
       (sample_world_no_file "Mike will fix the login bug by Friday."
          (llm_saying "- Fix the login bug") "yes")
       Main.output_filename = false
  /\ run_result
       (Main.transcribe_stage
          (sample_world_no_file "Mike will fix the login bug by Friday."
             (llm_saying "- Fix the login bug") "yes")
          Main.output_filename) = Exit.
Proof.
  split; [reflexivity|]. split; [reflexivity|].
  apply (missing_audio_file_halts
           (sample_world_no_file "Mike will fix the login bug by Friday."
              (llm_saying "- Fix the login bug") "yes")
           (Transcriber.mk "tiny" true) Main.output_filename);
    reflexivity.
Defined.

End MissingFileClaim.

(** ** The transcript that is handed on *)

Section HandedOn.

Lemma transcribe_stage_success (w : World) (path heard : string) :
  Transcriber.imported (speech w) = true ->
  Transcriber.load_model (speech w) "tiny" = Returns tt ->
  path_exists w path = true ->
  Transcriber.transcribe (speech w) path = Returns heard ->
  PyStr.contains "Error:" heard = false ->
  PyStr.truthy (PyStr.strip heard) = true ->
  run_result (Main.transcribe_stage w path) = Done heard.
Proof.
  intros Hi Hl He Ht Hm Hs.
  unfold Main.transcribe_stage, Transcriber.init, Transcriber.transcribe_audio.
  rewrite Hi, Hl.
  cbn -[PyStr.strip PyStr.contains].
  rewrite He, Ht.
  cbn -[PyStr.strip PyStr.contains].
  rewrite Hm, Hs. reflexivity.
Qed.

Lemma main_hands_on (w : World) (path transcript : string) :
  run_result (Main.record_stage w) = Done path ->
  run_result (Main.transcribe_stage w path) = Done transcript ->
  PyStr.truthy (PyStr.strip transcript) = true ->
  exists pre post : trace,
    run_trace (Main.main w)
    = (pre ++ run_trace (Main.process_stage w transcript) ++ post)%list.
Proof.
  intros Hr Ht Hs. apply strip_truthy in Hs as [Hs1 Hs2].
  unfold Main.main.
  rewrite run_bind_trace.
  change (run_result Main.banner) with (@Done unit tt). cbv iota.
  rewrite run_bind_trace, Hr, run_bind_trace, Ht, Hs1, Hs2.
  cbn [negb orb].
  rewrite !run_bind_trace.
  exists (run_trace Main.banner ++ run_trace (Main.record_stage w)
          ++ run_trace (Main.transcribe_stage w path))%list.
  eexists. rewrite <- !app_assoc. reflexivity.
Qed.

End HandedOn.

Section HandedOnClaim.

(** C6, as stated, fails: the speech model hears " hi"; stage 2 hands on
    " hi", which [strip] would change, and the prompt of the summary call
    is built around " hi". *)
Lemma transcript_is_not_trimmed :
  run_result (Main.transcribe_stage world_leading_blank Main.output_filename)
  = Done " hi"
  /\ PyStr.strip " hi" <> " hi"
  /\ In (Chat "llama2" (TextProcessor.summarize_prompt " hi"))
        (run_trace (Main.main world_leading_blank)).
Proof.
  split; [reflexivity|]. split; [vm_compute; discriminate|].
  vm_compute. find_event.
Qed.

End HandedOnClaim.

(** ** app.py does not compile *)

Section AppCompile.

Lemma ltb_zero (n : nat) : (n <? 0)%nat = false.
Proof. destruct n; reflexivity. Qed.

(** A dedent to column 0 closes every open block. *)
Lemma dedent_to_zero (above : list nat) :
  Forall (fun n => (0 < n)%nat) above ->
  App.dedent_to 0 (above ++ [0%nat]) = Some [0%nat].
Proof.
  induction above as [|n above IH]; [reflexivity|].
  intros H. inversion H as [|? ? Hn Ha]; subst.
  cbn [app App.dedent_to].
  destruct n as [|n]; [now apply Nat.lt_irrefl in Hn|].
  cbn. exact (IH Ha).
Qed.

(** C9: the lines that are to clear the state before a run do not compile.
    Whatever well-indented blocks are open when line 105 is reached, and
    whatever follows line 109, Python's indentation rule stops at line 109:
    it is indented deeper than lines 106-108 of the same block, and no
    colon precedes it. So app.py is rejected as a whole and none of its
    statements, the four assignments included, is ever executed. *)
Theorem app_py_does_not_compile (above : list nat)
    (rest : list App.source_line) :
  Forall (fun n => (0 < n)%nat) above ->
  App.check_indentation (above ++ [0%nat]) false (App.handler_head ++ rest)
  = Some (App.UnexpectedIndent 109).
Proof.
  intros H. unfold App.handler_head.
  cbn [app App.check_indentation App.indent App.opens_block App.lineno].
  rewrite ltb_zero, (dedent_to_zero above H).
  reflexivity.
Qed.

Lemma app_py_does_not_compile_witness :
  Forall (fun n => (0 < n)%nat) [4%nat]
  /\ App.check_indentation [4%nat; 0%nat] false App.handler_head
     = Some (App.UnexpectedIndent 109).
Proof.
  assert (H : Forall (fun n => (0 < n)%nat) [4%nat])
    by (constructor; [lia | constructor]).
  split; [exact H|].
  exact (app_py_does_not_compile [4%nat] [] H).
Defined.

End AppCompile.

(** ** The gate before the Teams post *)

Section PostGate.

(** main.py posts only past all three gates: the line-82 test, a webhook
    URL in the environment, and "yes" at the prompt. *)
Lemma post_stage_gate (w : World) (audio_file action_items : string) :
  http_posts (run_trace (Main.post_stage w audio_file action_items)) <> [] ->
  Main.postable action_items = true
  /\ (exists url, getenv w "MS_TEAMS_WEBHOOK_URL" = Some url
                  /\ PyStr.truthy url = true)
  /\ exists typed, typed_choice w = Returns typed
                   /\ PyStr.lower (PyStr.strip typed) = "yes".
Proof.
  unfold Main.post_stage.
  destruct (Main.postable action_items).
  - destruct (getenv w "MS_TEAMS_WEBHOOK_URL") as [[|c url]|];
      try (intros H; now elim H).
    destruct (typed_choice w) as [typed|e]; [|intros H; now elim H].
    cbn [bind call].
    destruct (PyStr.lower (PyStr.strip typed) =? "yes")%string
      eqn:E; [|intros H; now elim H].
    intros _. apply String.eqb_eq in E.
    split; [reflexivity|]. split; [eexists; split; reflexivity|].
    exists typed. split; [reflexivity | exact E].
  - destruct (PyStr.contains Main.sentinel action_items);
      intros H; now elim H.
Qed.

(** C2: evaluated at the sentinel in lower case. "no specific action
    items found." matches the sentinel when case is ignored, yet it passes
    the case-sensitive test of main.py line 82 and is posted after a
    "yes". *)
Theorem sentinel_is_posted :
  PyStr.lower "no specific action items found."
  = PyStr.lower (Main.sentinel ++ ".")
  /\ Main.postable "no specific action items found." = true
  /\ http_posts (run_trace (Main.main world_lowercase_sentinel))
     = [the_request example_poster
          (Some "Action Items from: recorded_audio.wav")
          "no specific action items found."].
Proof.
  repeat split; vm_compute; reflexivity.
Qed.

(** C3: evaluated where the generative model answers ResponseError 404.
    [generate_action_items] returns a message that begins "Error during",
    without the "Error:" marker; it passes the line-82 test and, the user
    having typed "yes", [main] posts it to Teams. *)
Theorem model_error_is_posted :
  run_result (TextProcessor.generate_action_items llm_model_missing
                example_processor "Mike will fix the login bug by Friday.")
  = Done model_missing_message
  /\ PyStr.contains "Error:" model_missing_message = false
  /\ Main.postable model_missing_message = true
  /\ http_posts (run_trace (Main.main world_model_missing))
     = [the_request example_poster
          (Some "Action Items from: recorded_audio.wav")
          model_missing_message].
Proof. repeat split; vm_compute; reflexivity. Qed.

End PostGate.

(* ================================================================== *)
(** * Further properties of the code *)
(* ================================================================== *)

(** ** More on strings *)

Section StripFacts.

Lemma lstrip_head (s : string) :
  PyStr.lstrip s = EmptyString
  \/ exists c t, PyStr.lstrip s = String c t /\ PyStr.is_whitespace c = false.
Proof.
  induction s as [|c s IH]; cbn [PyStr.lstrip]; [now left|].
  destruct (PyStr.is_whitespace c) eqn:E; [exact IH|].
  right. now exists c, s.
Qed.

Lemma rstrip_cons_solid (c : ascii) (t : string) :
  PyStr.is_whitespace c = false ->
  PyStr.rstrip (String c t) = String c (PyStr.rstrip t).
Proof.
  intros H. cbn [PyStr.rstrip]. rewrite H.
  destruct (PyStr.rstrip t); reflexivity.
Qed.

Lemma rstrip_idempotent (s : string) :
  PyStr.rstrip (PyStr.rstrip s) = PyStr.rstrip s.
Proof.
  induction s as [|c s IH]; [reflexivity|].
  cbn [PyStr.rstrip].
  destruct (PyStr.rstrip s) as [|c' t'] eqn:E.
  - destruct (PyStr.is_whitespace c) eqn:Ec; [reflexivity|].
    cbn [PyStr.rstrip]. now rewrite Ec.
  - cbn [PyStr.rstrip] in *. rewrite IH. reflexivity.
Qed.

(** What [strip] returns is trimmed: stripping it again changes nothing. *)
Lemma strip_idempotent (s : string) :
  PyStr.strip (PyStr.strip s) = PyStr.strip s.
Proof.
  unfold PyStr.strip.
  destruct (lstrip_head s) as [->|(c & t & -> & Hc)]; [reflexivity|].
  rewrite (rstrip_cons_solid c t Hc).
  cbn [PyStr.lstrip]. rewrite Hc.
  rewrite <- (rstrip_cons_solid c t Hc). apply rstrip_idempotent.
Qed.

(** A string that starts with a solid character survives [strip]. *)
Lemma strip_solid_head (c : ascii) (t : string) :
  PyStr.is_whitespace c = false ->
  PyStr.truthy (PyStr.strip (String c t)) = true.
Proof.
  intros H. unfold PyStr.strip. cbn [PyStr.lstrip]. rewrite H.
  rewrite (rstrip_cons_solid c t H). reflexivity.
Qed.

Lemma prefix_refl (p : string) : prefix p p = true.
Proof.
  induction p as [|c p IH]; [reflexivity|].
  rewrite prefix_cons. destruct (ascii_dec c c) as [_|ne];
    [exact IH | now elim ne].
Qed.

(** [p in a + p] *)
Lemma contains_app_end (p a : string) : PyStr.contains p (a ++ p) = true.
Proof.
  induction a as [|c a IH]; cbn [append].
  - apply contains_prefix, prefix_refl.
  - rewrite contains_unfold, IH. apply orb_true_r.
Qed.

(** The prefix of the speech-failure message adds no marker of its own. *)
Lemma whisper_failure_marker (e : exn) :
  PyStr.contains "Error:" (whisper_failure e)
  = PyStr.contains "Error:" (str_exn e).
Proof. reflexivity. Qed.

End StripFacts.

(** ** The constructors *)

Section Constructors.

(** X1: [TeamsPoster(url)] raises [ValueError] exactly when the URL is
    empty. Any other URL is accepted and stored as given, whatever its
    scheme; one that does not start with "https://" only earns a warning on
    the console. The constructor contacts nobody. *)
Theorem teams_poster_init_accepts (webhook_url : string) :
  (webhook_url = EmptyString <->
   run_result (TeamsPoster.init webhook_url)
   = Raised (ValueError "MS Teams Webhook URL cannot be empty."))
  /\ (webhook_url <> EmptyString <->
      run_result (TeamsPoster.init webhook_url)
      = Done (TeamsPoster.mk webhook_url))
  /\ (run_trace (TeamsPoster.init webhook_url) = [] <->
      webhook_url = EmptyString
      \/ PyStr.startswith "https://" webhook_url = true)
  /\ http_posts (run_trace (TeamsPoster.init webhook_url)) = [].
Proof.
  unfold TeamsPoster.init.
  destruct webhook_url as [|c u].
  - cbn. repeat split; try reflexivity; try discriminate; auto.
    intros H; now elim H.
  - cbn [PyStr.truthy negb].
    destruct (PyStr.startswith "https://" (String c u)); cbn.
    + repeat split; try reflexivity; try discriminate; auto.
    + repeat split; try reflexivity; try discriminate.
      intros [H|H]; discriminate H.
Qed.

(** X2: [Transcriber(name)] never raises. Its model is loaded exactly when
    the whisper library was imported and [load_model] returned; without the
    library no load is attempted, and with it exactly one. *)
Theorem transcriber_init_loaded (lib : Transcriber.whisper) (name : string) :
  run_result (Transcriber.init lib name)
  = Done (Transcriber.mk name
            (Transcriber.imported lib
             && is_returns (Transcriber.load_model lib name)))
  /\ model_loads (run_trace (Transcriber.init lib name))
     = if Transcriber.imported lib then [LoadModel name] else [].
Proof.
  unfold Transcriber.init.
  destruct (Transcriber.imported lib); [|split; reflexivity].
  destruct (Transcriber.load_model lib name) as [[]|e]; split; reflexivity.
Qed.

(** X3: [TextProcessor(model, host)] creates its client outside the
    [try]: whatever [ollama.Client] raises leaves the constructor, before
    the availability check is made. Of the check itself an
    [ollama.ResponseError] is swallowed and a processor is returned all the
    same, while any other exception leaves the constructor. An empty host
    counts as no host, and no chat call is made. *)
Theorem text_processor_init_outcome (lib : TextProcessor.ollama)
    (model : string) (host : option string) :
  run_result (TextProcessor.init lib model host)
  = match TextProcessor.new_client lib (client_host host) with
    | Throws e => Raised e
    | Returns _ =>
        match TextProcessor.show lib model with
        | Returns _ => Done (TextProcessor.mk model (client_host host))
        | Throws e =>
            if is_response_error e
            then Done (TextProcessor.mk model (client_host host))
            else Raised e
        end
    end
  /\ llm_events (run_trace (TextProcessor.init lib model host))
     = (if is_returns (TextProcessor.new_client lib (client_host host))
        then [NewClient (client_host host); Show model]
        else [NewClient (client_host host)])
  /\ chats (run_trace (TextProcessor.init lib model host)) = [].
Proof.
  unfold TextProcessor.init.
  destruct host as [[|c h]|]; cbn [PyStr.truthy client_host];
    (match goal with
     | |- context [TextProcessor.new_client lib ?h] =>
         destruct (TextProcessor.new_client lib h) as [[]|e0]
     end; [|repeat split];
     destruct (TextProcessor.show lib model) as [[]|e];
     [|destruct e]; repeat split; reflexivity).
Qed.

End Constructors.

(** ** transcribe_audio beyond the missing file *)

Section TranscribeAudio.

(** X4: [transcribe_audio] never raises, contacts only the speech model,
    and calls it at most once: exactly when a model is loaded and the file
    exists. *)
Theorem transcribe_audio_calls (lib : Transcriber.whisper)
    (path_exists : string -> bool) (self : Transcriber.t) (path : string) :
  (exists s : string,
     run_result (Transcriber.transcribe_audio lib path_exists self path)
     = Done s)
  /\ speech_calls
       (run_trace (Transcriber.transcribe_audio lib path_exists self path))
     = (if Transcriber.model self && path_exists path
        then [Transcribe path] else [])
  /\ llm_events
       (run_trace (Transcriber.transcribe_audio lib path_exists self path))
     = []
  /\ http_posts
       (run_trace (Transcriber.transcribe_audio lib path_exists self path))
     = [].
Proof.
  unfold Transcriber.transcribe_audio.
  destruct (Transcriber.model self); cbn [negb andb];
    [|repeat split; eexists; reflexivity].
  destruct (path_exists path); cbn [negb];
    [|repeat split; eexists; reflexivity].
  destruct (Transcriber.transcribe lib path) as [text|e].
  - repeat split. eexists; reflexivity.
  - destruct e; repeat split; eexists; reflexivity.
Qed.

(** The generic handler of [transcribe_audio], without the ffmpeg hint. *)
Lemma transcribe_audio_failure (lib : Transcriber.whisper)
    (path_exists : string -> bool) (self : Transcriber.t) (path : string)
    (e : exn) :
  Transcriber.model self = true ->
  path_exists path = true ->
  Transcriber.transcribe lib path = Throws e ->
  not_name_error e = true ->
  PyStr.contains "ffmpeg" (PyStr.lower (str_exn e)) = false ->
  run_result (Transcriber.transcribe_audio lib path_exists self path)
  = Done (whisper_failure e).
Proof.
  intros Hm He Ht Hn Hf. unfold Transcriber.transcribe_audio.
  rewrite Hm, He. cbn [negb]. rewrite run_bind_result. cbn [print emit run_result snd].
  unfold try_except, call. rewrite Ht.
  cbn [bind]. 
  destruct e; try discriminate Hn; rewrite Hf; reflexivity.
Qed.

End TranscribeAudio.

Section SpeechFailure.

Lemma whisper_failure_survives_strip (e : exn) :
  PyStr.truthy (PyStr.strip (whisper_failure e)) = true.
Proof. exact (strip_solid_head "E" _ eq_refl). Qed.

(** X5: when the speech model raises an exception whose text holds neither
    "Error:" nor "ffmpeg", [transcribe_audio] answers "Error during Whisper
    transcription: <text>"; the test of main.py line 49 lets that through,
    so stage 2 hands the message on as the transcript and stage 3 runs the
    TextProcessor on it. *)
Theorem speech_failure_taken_for_transcript (w : World) (path : string)
    (e : exn) :
  Transcriber.imported (speech w) = true ->
  Transcriber.load_model (speech w) "tiny" = Returns tt ->
  path_exists w path = true ->
  Transcriber.transcribe (speech w) path = Throws e ->
  not_name_error e = true ->
  PyStr.contains "ffmpeg" (PyStr.lower (str_exn e)) = false ->
  PyStr.contains "Error:" (str_exn e) = false ->
  run_result (Main.record_stage w) = Done path ->
  run_result (Main.transcribe_stage w path)
  = Done ("Error during Whisper transcription: " ++ str_exn e)
  /\ exists pre post : trace,
       run_trace (Main.main w)
       = (pre
          ++ run_trace (Main.process_stage w
                          ("Error during Whisper transcription: "
                           ++ str_exn e))
          ++ post)%list.
Proof.
  intros Hi Hl He Ht Hn Hf Hm Hr.
  fold (whisper_failure e).
  assert (Hs : run_result (Main.transcribe_stage w path)
               = Done (whisper_failure e)).
  { unfold Main.transcribe_stage.
    rewrite run_bind_result. cbn [print emit run_result snd].
    rewrite run_bind_result.
    rewrite (proj1 (transcriber_init_loaded (speech w) "tiny")), Hi, Hl.
    cbn [andb is_returns Transcriber.model].
    rewrite run_bind_result. cbn [print emit run_result snd].
    rewrite run_bind_result.
    rewrite (transcribe_audio_failure (speech w) (path_exists w)
               (Transcriber.mk "tiny" true) path e eq_refl He Ht Hn Hf).
    rewrite whisper_failure_marker, Hm, whisper_failure_survives_strip.
    reflexivity. }
  split; [exact Hs|].
  exact (main_hands_on w path (whisper_failure e) Hr Hs
           (whisper_failure_survives_strip e)).
Qed.

Lemma speech_failure_taken_for_transcript_witness :
  run_result (Main.transcribe_stage world_speech_failing Main.output_filename)
  = Done "Error during Whisper transcription: audio codec failed"
  /\ exists pre post : trace,
       run_trace (Main.main world_speech_failing)
       = (pre
          ++ run_trace (Main.process_stage world_speech_failing
                          "Error during Whisper transcription: audio codec failed")
          ++ post)%list.
Proof.
  apply (speech_failure_taken_for_transcript world_speech_failing
           Main.output_filename (OtherException "audio codec failed"));
    reflexivity.
Defined.

End SpeechFailure.

(** ** TextProcessor on text that is not blank *)

Section TextProcessorCalls.

Import TextProcessor.

Lemma summarize_prompt_holds_text (text : string) :
  PyStr.contains text (summarize_prompt text) = true.
Proof.
  exact (contains_app text
           ("Summarize the following text in about 3-4 key sentences:"
            ++ PyStr.nl ++ PyStr.nl)
           (PyStr.nl ++ PyStr.nl ++ "Summary:")).
Qed.

Lemma action_items_prompt_holds_text (text : string) :
  PyStr.contains text (action_items_prompt text) = true.
Proof.
  exact (contains_app text
           ("Based on the following text, extract key action items."
            ++ PyStr.nl
            ++ "If no specific action items are mentioned, state 'No specific action items found'."
            ++ PyStr.nl
            ++ "Present the action items as a bulleted list."
            ++ PyStr.nl ++ PyStr.nl ++ "Text:" ++ PyStr.nl)
           (PyStr.nl ++ PyStr.nl ++ "Action Items:")).
Qed.

Lemma action_items_prompt_holds_sentinel (text : string) :
  PyStr.contains Main.sentinel (action_items_prompt text) = true.
Proof.
  exact (contains_app Main.sentinel
           ("Based on the following text, extract key action items."
            ++ PyStr.nl
            ++ "If no specific action items are mentioned, state '")
           ("'." ++ PyStr.nl
            ++ "Present the action items as a bulleted list."
            ++ PyStr.nl ++ PyStr.nl ++ "Text:" ++ PyStr.nl ++ text
            ++ PyStr.nl ++ PyStr.nl ++ "Action Items:")).
Qed.

(** X6: on text that is neither empty nor blank, each operation makes
    exactly one [client.chat] call, to the model bound at construction and
    with a prompt that contains the text as given; the action-item prompt
    also spells out the sentinel phrase the model is to answer with. *)
Theorem text_processor_one_round_trip (lib : ollama) (self : TextProcessor.t)
    (text : string) :
  PyStr.truthy text = true ->
  PyStr.isspace text = false ->
  llm_events (run_trace (summarize_text lib self text))
  = [Chat (ollama_model_name self) (summarize_prompt text)]
  /\ llm_events (run_trace (generate_action_items lib self text))
     = [Chat (ollama_model_name self) (action_items_prompt text)]
  /\ PyStr.contains text (summarize_prompt text) = true
  /\ PyStr.contains text (action_items_prompt text) = true
  /\ PyStr.contains "No specific action items found"
       (action_items_prompt text) = true.
Proof.
  intros Ht Hs.
  split; [|split].
  - unfold summarize_text. rewrite Ht, Hs. cbn [negb orb].
    destruct (chat lib (ollama_model_name self) (summarize_prompt text))
      as [r|e]; [reflexivity|].
    destruct e; reflexivity.
  - unfold generate_action_items. rewrite Ht, Hs. cbn [negb orb].
    destruct (chat lib (ollama_model_name self) (action_items_prompt text))
      as [r|e]; [reflexivity|].
    destruct e; reflexivity.
  - split; [apply summarize_prompt_holds_text|].
    split; [apply action_items_prompt_holds_text|].
    apply action_items_prompt_holds_sentinel.
Qed.

Lemma text_processor_one_round_trip_witness :
  llm_events (run_trace (summarize_text (llm_saying "- Call Mike")
                           example_processor "Call Mike today."))
  = [Chat "llama2" (summarize_prompt "Call Mike today.")].
Proof.
  apply (text_processor_one_round_trip (llm_saying "- Call Mike")
           example_processor "Call Mike today."); reflexivity.
Defined.

(** X7: when the model replies, each operation returns the reply with
    leading and trailing whitespace removed; the returned string is
    trimmed, so stripping it again leaves it unchanged. *)
Theorem text_processor_reply_trimmed (lib : ollama) (self : TextProcessor.t)
    (text summary_reply items_reply : string) :
  PyStr.truthy text = true ->
  PyStr.isspace text = false ->
  chat lib (ollama_model_name self) (summarize_prompt text)
  = Returns summary_reply ->
  chat lib (ollama_model_name self) (action_items_prompt text)
  = Returns items_reply ->
  exists summary action_items : string,
    run_result (summarize_text lib self text) = Done summary
    /\ run_result (generate_action_items lib self text) = Done action_items
    /\ summary = PyStr.strip summary_reply
    /\ action_items = PyStr.strip items_reply
    /\ PyStr.strip summary = summary
    /\ PyStr.strip action_items = action_items.
Proof.
  intros Ht Hs H1 H2.
  exists (PyStr.strip summary_reply), (PyStr.strip items_reply).
  split; [|split].
  - unfold summarize_text. rewrite Ht, Hs. cbn [negb orb bind print emit].
    unfold call. rewrite H1. reflexivity.
  - unfold generate_action_items. rewrite Ht, Hs.
    cbn [negb orb bind print emit]. unfold call. rewrite H2. reflexivity.
  - repeat split; apply strip_idempotent.
Qed.

Lemma text_processor_reply_trimmed_witness :
  exists summary action_items : string,
    run_result (summarize_text (llm_saying "  - Call Mike  ")
                  example_processor "Call Mike today.") = Done summary
    /\ run_result (generate_action_items (llm_saying "  - Call Mike  ")
                     example_processor "Call Mike today.") = Done action_items
    /\ summary = PyStr.strip "  - Call Mike  "
    /\ action_items = PyStr.strip "  - Call Mike  "
    /\ PyStr.strip summary = summary
    /\ PyStr.strip action_items = action_items.
Proof.
  apply (text_processor_reply_trimmed (llm_saying "  - Call Mike  ")
           example_processor "Call Mike today." "  - Call Mike  "
           "  - Call Mike  "); reflexivity.
Defined.

(** X8: when [client.chat] raises an exception that is not a
    ResponseError, neither operation raises: each returns "An unexpected
    error occurred during ...: <text of the exception>". That message holds
    the text of the exception, and it holds the "Error:" marker that the
    drivers look for only if the text of the exception does. *)
Theorem text_processor_unexpected_error (lib : ollama)
    (self : TextProcessor.t) (text : string) (e : exn) :
  PyStr.truthy text = true ->
  PyStr.isspace text = false ->
  is_response_error e = false ->
  chat lib (ollama_model_name self) (summarize_prompt text) = Throws e ->
  chat lib (ollama_model_name self) (action_items_prompt text) = Throws e ->
  run_result (summarize_text lib self text)
  = Done ("An unexpected error occurred during summarization: "
          ++ str_exn e)
  /\ run_result (generate_action_items lib self text)
     = Done ("An unexpected error occurred during action item generation: "
             ++ str_exn e)
  /\ PyStr.contains (str_exn e) (unexpected_summary_error e) = true
  /\ PyStr.contains (str_exn e) (unexpected_action_items_error e) = true
  /\ PyStr.contains "Error:" (unexpected_summary_error e)
     = PyStr.contains "Error:" (str_exn e)
  /\ PyStr.contains "Error:" (unexpected_action_items_error e)
     = PyStr.contains "Error:" (str_exn e).
Proof.
  intros Ht Hs He H1 H2.
  split; [|split].
  - unfold summarize_text. rewrite Ht, Hs. cbn [negb orb bind print emit].
    unfold call. rewrite H1. destruct e; try discriminate He; reflexivity.
  - unfold generate_action_items. rewrite Ht, Hs.
    cbn [negb orb bind print emit]. unfold call. rewrite H2.
    destruct e; try discriminate He; reflexivity.
  - split.
    { exact (contains_app_end (str_exn e)
               "An unexpected error occurred during summarization: "). }
    split.
    { exact (contains_app_end (str_exn e)
               "An unexpected error occurred during action item generation: "). }
    split; reflexivity.
Qed.

Lemma text_processor_unexpected_error_witness :
  run_result (summarize_text (llm_chat_failing "connection reset")
                example_processor "Call Mike today.")
  = Done "An unexpected error occurred during summarization: connection reset".
Proof.
  apply (text_processor_unexpected_error (llm_chat_failing "connection reset")
           example_processor "Call Mike today."
           (OtherException "connection reset")); reflexivity.
Defined.

End TextProcessorCalls.

(** ** main.py, stage by stage *)

Section MainStages.

(** X9: stage 1 of main.py. An answer that is no number makes it record for
    5 seconds; a positive number records for that long; zero or less
    records nothing. The file handed on is always recorded_audio.wav, and
    the stage returns from [main] exactly when nothing was to be recorded
    and that file does not exist. *)
Theorem record_stage_behaviour (w : World) :
  recordings (run_trace (Main.record_stage w)) = expected_recordings w
  /\ (forall p, run_result (Main.record_stage w) = Done p ->
                p = "recorded_audio.wav")
  /\ (run_result (Main.record_stage w) = Exit <->
      exists d, typed_duration w = Returns d /\ d <= 0
                /\ path_exists w "recorded_audio.wav" = false)
  /\ model_loads (run_trace (Main.record_stage w)) = []
  /\ llm_events (run_trace (Main.record_stage w)) = []
  /\ http_posts (run_trace (Main.record_stage w)) = [].
Proof.
  unfold Main.record_stage, AudioRecorder.record_audio, expected_recordings.
  change Main.output_filename with "recorded_audio.wav".
  destruct (typed_duration w) as [d|e].
  - cbn [bind emit print ret].
    destruct (0 <? d) eqn:Ed.
    + destruct (recorder w d "recorded_audio.wav") as [[]|e]; cbn;
        repeat split; try congruence; try discriminate;
        intros (d' & [= <-] & Hd & _); lia.
    + destruct (path_exists w "recorded_audio.wav") eqn:Ep; cbn;
        repeat split; try congruence; try discriminate.
      * intros (d' & _ & _ & H); discriminate H.
      * intros _. exists d. repeat split. lia.
  - destruct e; cbn;
      try (repeat split; try congruence; try discriminate;
           intros (d' & H & _); discriminate H).
    destruct (recorder w 5 "recorded_audio.wav") as [[]|e]; cbn;
      repeat split; try congruence; try discriminate;
      intros (d' & H & _); discriminate H.
Qed.

(** Stage 2 never raises and talks to the speech library only. *)
Lemma transcribe_stage_quiet (w : World) (path : string) :
  llm_events (run_trace (Main.transcribe_stage w path)) = []
  /\ http_posts (run_trace (Main.transcribe_stage w path)) = []
  /\ recordings (run_trace (Main.transcribe_stage w path)) = []
  /\ forall e, run_result (Main.transcribe_stage w path) <> Raised e.
Proof.
  unfold Main.transcribe_stage, Transcriber.init, Transcriber.transcribe_audio.
  destruct (Transcriber.imported (speech w));
    [|repeat split; discriminate].
  destruct (Transcriber.load_model (speech w) "tiny") as [[]|e'];
    [|repeat split; discriminate].
  cbn -[PyStr.strip PyStr.contains PyStr.lower append].
  destruct (path_exists w path).
  - destruct (Transcriber.transcribe (speech w) path) as [t|e'].
    + cbn -[PyStr.strip PyStr.contains PyStr.lower append].
      destruct (PyStr.contains "Error:" t
                || negb (PyStr.truthy (PyStr.strip t)));
        repeat split; discriminate.
    + destruct e'; cbn -[PyStr.strip PyStr.contains PyStr.lower append];
        try (destruct (PyStr.contains "ffmpeg" _));
        cbn -[PyStr.strip PyStr.contains PyStr.lower append];
        match goal with
        | |- context [if ?c then _ else _] => destruct c
        end; repeat split; discriminate.
  - cbn -[PyStr.strip PyStr.contains PyStr.lower append].
    match goal with
    | |- context [if ?c then _ else _] => destruct c
    end; repeat split; discriminate.
Qed.

End MainStages.

Section MainGate.

(** What stage 2 guarantees of the text it hands on. *)
Lemma transcribe_stage_postcondition (w : World) (path t : string) :
  run_result (Main.transcribe_stage w path) = Done t ->
  Transcriber.imported (speech w) = true
  /\ Transcriber.load_model (speech w) "tiny" = Returns tt
  /\ path_exists w path = true
  /\ PyStr.contains "Error:" t = false
  /\ PyStr.truthy (PyStr.strip t) = true.
Proof.
  unfold Main.transcribe_stage, Transcriber.init, Transcriber.transcribe_audio.
  destruct (Transcriber.imported (speech w)); [|discriminate].
  destruct (Transcriber.load_model (speech w) "tiny") as [[]|e'];
    [|discriminate].
  cbn -[PyStr.strip PyStr.contains PyStr.lower append].
  destruct (path_exists w path).
  - destruct (Transcriber.transcribe (speech w) path) as [t'|e'].
    + cbn -[PyStr.strip PyStr.contains PyStr.lower append].
      destruct (PyStr.contains "Error:" t') eqn:Em; [discriminate|].
      destruct (PyStr.truthy (PyStr.strip t')) eqn:Es; [|discriminate].
      cbn. intros [= <-]. auto.
    + destruct e'; cbn -[PyStr.strip PyStr.contains PyStr.lower append];
        try (destruct (PyStr.contains "ffmpeg" _));
        cbn -[PyStr.strip PyStr.contains PyStr.lower append];
        match goal with
        | |- context [PyStr.contains "Error:" ?s] =>
            destruct (PyStr.contains "Error:" s) eqn:Em; [discriminate|];
            destruct (PyStr.truthy (PyStr.strip s)) eqn:Es; [|discriminate]
        end; cbn; intros [= <-]; auto.
  - cbn -[PyStr.strip PyStr.contains PyStr.lower append].
    pose proof (file_not_found_marked path) as Hm.
    unfold file_not_found in Hm. rewrite Hm. discriminate.
Qed.

(** X10: main.py builds or calls the TextProcessor only after stage 2 has
    handed on a text; and a text is handed on only if the speech model was
    loaded, recorded_audio.wav exists, and the text holds no "Error:" and
    is not blank. *)
Theorem main_reaches_text_processor_only_with_text (w : World) :
  llm_events (run_trace (Main.main w)) <> [] ->
  exists t : string,
    run_result (Main.transcribe_stage w "recorded_audio.wav") = Done t
    /\ Transcriber.imported (speech w) = true
    /\ Transcriber.load_model (speech w) "tiny" = Returns tt
    /\ path_exists w "recorded_audio.wav" = true
    /\ PyStr.contains "Error:" t = false
    /\ PyStr.truthy (PyStr.strip t) = true.
Proof.
  intros H.
  destruct (record_stage_cases w) as (Hl & _ & Hp).
  destruct (run_result (Main.transcribe_stage w "recorded_audio.wav"))
    as [t| |e] eqn:Et.
  - exists t. split; [reflexivity|].
    exact (transcribe_stage_postcondition w "recorded_audio.wav" t Et).
  - exfalso. apply H. unfold Main.main.
    rewrite run_bind_trace.
    change (run_result Main.banner) with (@Done unit tt). cbv iota.
    rewrite run_bind_trace. split_filters. rewrite Hl.
    destruct (run_result (Main.record_stage w)) as [p| |e'] eqn:Er;
      [|reflexivity|reflexivity].
    rewrite (Hp p eq_refl). change Main.output_filename with "recorded_audio.wav".
    rewrite run_bind_trace, Et.
    destruct (transcribe_stage_quiet w "recorded_audio.wav") as (Hq & _).
    split_filters. rewrite Hq. reflexivity.
  - exfalso.
    destruct (transcribe_stage_quiet w "recorded_audio.wav") as (_ & _ & _ & Hq).
    exact (Hq e Et).
Qed.

Lemma main_reaches_text_processor_only_with_text_witness :
  exists t : string,
    run_result (Main.transcribe_stage world_leading_blank "recorded_audio.wav")
    = Done t
    /\ Transcriber.imported (speech world_leading_blank) = true
    /\ Transcriber.load_model (speech world_leading_blank) "tiny" = Returns tt
    /\ path_exists world_leading_blank "recorded_audio.wav" = true
    /\ PyStr.contains "Error:" t = false
    /\ PyStr.truthy (PyStr.strip t) = true.
Proof.
  apply (main_reaches_text_processor_only_with_text world_leading_blank).
  vm_compute. discriminate.
Defined.

(** X11: when the user asks for no recording (a duration of zero or less)
    and recorded_audio.wav does not exist, [main] returns at once: nothing
    is recorded, no speech model is loaded, no TextProcessor is built and
    nothing is posted. *)
Theorem main_nothing_to_process (w : World) (d : Z) :
  typed_duration w = Returns d ->
  d <= 0 ->
  path_exists w "recorded_audio.wav" = false ->
  run_result (Main.main w) = Exit
  /\ recordings (run_trace (Main.main w)) = []
  /\ model_loads (run_trace (Main.main w)) = []
  /\ llm_events (run_trace (Main.main w)) = []
  /\ http_posts (run_trace (Main.main w)) = [].
Proof.
  intros Ht Hd Hp.
  assert (Hz : (0 <? d) = false) by lia.
  unfold Main.main, Main.record_stage.
  change Main.output_filename with "recorded_audio.wav".
  rewrite Ht. cbn [bind emit print ret Main.banner].
  rewrite Hz, Hp. cbn. repeat split.
Qed.

Lemma main_nothing_to_process_witness :
  run_result (Main.main world_nothing_to_process) = Exit
  /\ recordings (run_trace (Main.main world_nothing_to_process)) = []
  /\ model_loads (run_trace (Main.main world_nothing_to_process)) = []
  /\ llm_events (run_trace (Main.main world_nothing_to_process)) = []
  /\ http_posts (run_trace (Main.main world_nothing_to_process)) = [].
Proof.
  apply (main_nothing_to_process world_nothing_to_process 0);
    [reflexivity | lia | reflexivity].
Defined.

End MainGate.

(** ** Facts shared by the stages of main.py *)

Section StageFacts.

Lemma run_try_result {A : Type} (m : IO A) (h : exn -> IO A) :
  run_result (try_except m h)
  = match run_result m with
    | Raised e => run_result (h e)
    | r => r
    end.
Proof. destruct m as [t [a| |e]]; cbn; [| |destruct (h e)]; reflexivity. Qed.

Lemma run_try_trace {A : Type} (m : IO A) (h : exn -> IO A) :
  run_trace (try_except m h)
  = (run_trace m
     ++ match run_result m with
        | Raised e => run_trace (h e)
        | _ => []
        end)%list.
Proof.
  destruct m as [t [a| |e]]; cbn; [| |destruct (h e); reflexivity];
    now rewrite app_nil_r.
Qed.

(** A trace without calls to the generative model holds no chat. *)
Lemma chats_of_llm_free (t : trace) : llm_events t = [] -> chats t = [].
Proof.
  unfold llm_events, chats.
  induction t as [|ev t IH]; [reflexivity|].
  cbn [filter]. destruct ev; cbn; try discriminate; exact IH.
Qed.

(** The constructor, by what leaves it. *)
Lemma text_processor_init_facts (lib : TextProcessor.ollama)
    (model : string) (host : option string) :
  run_result (TextProcessor.init lib model host)
  = match constructor_failure lib model host with
    | Some e => Raised e
    | None => Done (TextProcessor.mk model (client_host host))
    end
  /\ chats (run_trace (TextProcessor.init lib model host)) = []
  /\ http_posts (run_trace (TextProcessor.init lib model host)) = [].
Proof.
  unfold TextProcessor.init, constructor_failure.
  destruct host as [[|c h]|]; cbn [PyStr.truthy client_host];
    (match goal with
     | |- context [TextProcessor.new_client lib ?h] =>
         destruct (TextProcessor.new_client lib h) as [[]|e0]
     end; [|repeat split];
     destruct (TextProcessor.show lib model) as [[]|e];
     [|destruct e]; repeat split; reflexivity).
Qed.

(** One chat each, on text that is not blank. *)
Lemma summarize_text_facts (lib : TextProcessor.ollama)
    (self : TextProcessor.t) (text : string) :
  PyStr.truthy text = true ->
  PyStr.isspace text = false ->
  (exists s, run_result (TextProcessor.summarize_text lib self text) = Done s)
  /\ chats (run_trace (TextProcessor.summarize_text lib self text))
     = [Chat (TextProcessor.ollama_model_name self)
          (TextProcessor.summarize_prompt text)]
  /\ http_posts (run_trace (TextProcessor.summarize_text lib self text)) = [].
Proof.
  intros Ht Hs. unfold TextProcessor.summarize_text.
  rewrite Ht, Hs. cbn [negb orb].
  destruct (TextProcessor.chat lib (TextProcessor.ollama_model_name self)
              (TextProcessor.summarize_prompt text)) as [r|e];
    [|destruct e]; repeat split; eexists; reflexivity.
Qed.

Lemma generate_action_items_facts (lib : TextProcessor.ollama)
    (self : TextProcessor.t) (text : string) :
  PyStr.truthy text = true ->
  PyStr.isspace text = false ->
  (exists s,
     run_result (TextProcessor.generate_action_items lib self text) = Done s)
  /\ chats (run_trace (TextProcessor.generate_action_items lib self text))
     = [Chat (TextProcessor.ollama_model_name self)
          (TextProcessor.action_items_prompt text)]
  /\ http_posts
       (run_trace (TextProcessor.generate_action_items lib self text)) = [].
Proof.
  intros Ht Hs. unfold TextProcessor.generate_action_items.
  rewrite Ht, Hs. cbn [negb orb].
  destruct (TextProcessor.chat lib (TextProcessor.ollama_model_name self)
              (TextProcessor.action_items_prompt text)) as [r|e];
    [|destruct e]; repeat split; eexists; reflexivity.
Qed.

(** Stage 3 on text that is not blank. *)
Lemma process_stage_facts (w : World) (t : string) :
  PyStr.truthy t = true ->
  PyStr.isspace t = false ->
  chats (run_trace (Main.process_stage w t))
  = match constructor_failure (llm w) (main_model w) (main_host w) with
    | Some _ => []
    | None => [Chat (main_model w) (TextProcessor.summarize_prompt t);
               Chat (main_model w) (TextProcessor.action_items_prompt t)]
    end
  /\ http_posts (run_trace (Main.process_stage w t)) = []
  /\ match constructor_failure (llm w) (main_model w) (main_host w) with
     | Some e => run_result (Main.process_stage w t) = Raised e
     | None => exists a, run_result (Main.process_stage w t) = Done a
     end.
Proof.
  intros Ht Hs. unfold Main.process_stage. cbv zeta.
  fold (main_model w). fold (main_host w).
  destruct (text_processor_init_facts (llm w) (main_model w) (main_host w))
    as (Hi & Hic & Hih).
  rewrite !run_bind_trace, !run_bind_result.
  cbn [print emit run_result run_trace fst snd].
  rewrite Hi. unfold chats, http_posts in *.
  destruct (constructor_failure (llm w) (main_model w) (main_host w))
    as [e|]; cbv iota.
  - rewrite !filter_app, Hic, Hih. repeat split.
  - set (tp := TextProcessor.mk (main_model w) (client_host (main_host w))).
    destruct (summarize_text_facts (llm w) tp t Ht Hs)
      as ((s & Hsr) & Hsc & Hsh).
    destruct (generate_action_items_facts (llm w) tp t Ht Hs)
      as ((a & Har) & Hac & Hah).
    unfold chats, http_posts in *.
    rewrite !run_bind_trace, !run_bind_result, Hsr. cbv iota.
    rewrite ?run_bind_trace, ?run_bind_result.
    cbn [print emit run_result run_trace fst snd].
    rewrite ?run_bind_trace, ?run_bind_result, Har. cbv iota.
    cbn [bind print emit ret run_result run_trace fst snd].
    rewrite !filter_app, Hic, Hih, Hsc, Hsh, Hac, Hah.
    repeat split. exists a. reflexivity.
Qed.

(** [post_message] asks the user nothing, makes no chat and never
    raises. *)
Lemma post_message_quiet (net : TeamsPoster.network) (self : TeamsPoster.t)
    (title : option string) (message_text : string) :
  (exists b, run_result (TeamsPoster.post_message net self title message_text)
             = Done b)
  /\ prompts (run_trace (TeamsPoster.post_message net self title message_text))
     = []
  /\ chats (run_trace (TeamsPoster.post_message net self title message_text))
     = []
  /\ http_posts
       (run_trace (TeamsPoster.post_message net self title message_text))
     = if nothing_to_send message_text then []
       else [the_request self title message_text].
Proof.
  destruct (nothing_to_send message_text) eqn:E.
  - unfold TeamsPoster.post_message. fold (nothing_to_send message_text).
    rewrite E. repeat split. eexists; reflexivity.
  - split; [|split; [|split]].
    + destruct (post_message_sends net self title message_text E)
        as (log & -> & _). eexists; reflexivity.
    + unfold TeamsPoster.post_message. fold (nothing_to_send message_text).
      rewrite E.
      destruct (net (TeamsPoster.webhook_url self) TeamsPoster.headers
                  (Json.dumps (TeamsPoster.payload title message_text)) 10)
        as [r|e].
      * destruct (error_status r) eqn:Er.
        -- destruct (raise_for_status_error r Er) as [msg Hr].
           cbn. rewrite Hr. reflexivity.
        -- cbn. rewrite (raise_for_status_ok r Er). cbn.
           destruct ((TeamsPoster.status_code r =? 200)
                     || (TeamsPoster.text r =? "1")%string); reflexivity.
      * destruct e; reflexivity.
    + unfold TeamsPoster.post_message. fold (nothing_to_send message_text).
      rewrite E.
      destruct (net (TeamsPoster.webhook_url self) TeamsPoster.headers
                  (Json.dumps (TeamsPoster.payload title message_text)) 10)
        as [r|e].
      * destruct (error_status r) eqn:Er.
        -- destruct (raise_for_status_error r Er) as [msg Hr].
           cbn. rewrite Hr. reflexivity.
        -- cbn. rewrite (raise_for_status_ok r Er). cbn.
           destruct ((TeamsPoster.status_code r =? 200)
                     || (TeamsPoster.text r =? "1")%string); reflexivity.
      * destruct e; reflexivity.
    + exact (http_posts_of_send net self title message_text E).
Qed.

Lemma teams_poster_init_nonempty (c : ascii) (u : string) :
  run_result (TeamsPoster.init (String c u))
  = Done (TeamsPoster.mk (String c u))
  /\ http_posts (run_trace (TeamsPoster.init (String c u))) = []
  /\ prompts (run_trace (TeamsPoster.init (String c u))) = []
  /\ chats (run_trace (TeamsPoster.init (String c u))) = [].
Proof.
  unfold TeamsPoster.init. cbn [PyStr.truthy negb].
  destruct (PyStr.startswith "https://" (String c u)); repeat split.
Qed.

(** The guarded part of stage 4: lines 87-98. *)
Lemma guarded_post (w : World) (c : ascii) (u : string)
    (audio_file action_items : string) (h : exn -> IO unit) :
  PyStr.truthy action_items = true ->
  let body :=
    try_except
      (poster <- TeamsPoster.init (String c u) ;;
       post_successful <-
         TeamsPoster.post_message (net w) poster
           (Some ("Action Items from: " ++ PyStr.basename audio_file))
           action_items ;;
       if negb post_successful then
         print "There was an issue posting to MS Teams. Please check the logs above and your webhook URL."
       else ret tt) h in
  run_result body = Done tt
  /\ prompts (run_trace body) = []
  /\ chats (run_trace body) = []
  /\ http_posts (run_trace body)
     = if PyStr.isspace action_items then []
       else [the_request (TeamsPoster.mk (String c u))
               (Some ("Action Items from: " ++ PyStr.basename audio_file))
               action_items].
Proof.
  intros Ht body. subst body.
  assert (Hn : nothing_to_send action_items = PyStr.isspace action_items).
  { unfold nothing_to_send. rewrite Ht. reflexivity. }
  destruct (teams_poster_init_nonempty c u) as (Hi & Hih & Hip & Hic).
  destruct (post_message_quiet (net w) (TeamsPoster.mk (String c u))
              (Some ("Action Items from: " ++ PyStr.basename audio_file))
              action_items) as ((b & Hb) & Hbp & Hbc & Hbh).
  rewrite Hn in Hbh.
  rewrite run_try_result, run_try_trace.
  rewrite !run_bind_result, !run_bind_trace, Hi. cbv iota.
  rewrite !run_bind_result, !run_bind_trace, Hb. cbv iota.
  unfold prompts, chats, http_posts in *.
  rewrite !filter_app, Hih, Hip, Hic, Hbp, Hbc, Hbh.
  destruct b; cbn [negb]; repeat split;
    destruct (PyStr.isspace action_items); reflexivity.
Qed.

(** Stage 4 makes no chat, and ends normally unless its prompt raises. *)
Lemma post_stage_facts (w : World) (audio_file action_items : string) :
  chats (run_trace (Main.post_stage w audio_file action_items)) = []
  /\ run_result (Main.post_stage w audio_file action_items)
     = if asks_user w action_items
       then match typed_choice w with
            | Returns _ => Done tt
            | Throws e => Raised e
            end
       else Done tt.
Proof.
  unfold Main.post_stage, asks_user, configured_webhook.
  destruct (Main.postable action_items) eqn:Hp; cbn [andb].
  2:{ destruct (PyStr.contains Main.sentinel action_items); split;
        reflexivity. }
  destruct (getenv w "MS_TEAMS_WEBHOOK_URL") as [[|c u]|];
    cbn [PyStr.truthy]; try (split; reflexivity).
  assert (Ht : PyStr.truthy action_items = true).
  { unfold Main.postable in Hp.
    destruct (PyStr.truthy action_items); [reflexivity | discriminate Hp]. }
  destruct (typed_choice w) as [typed|e]; [|split; reflexivity].
  rewrite run_bind_trace, run_bind_result.
  cbn [call run_result run_trace fst snd].
  destruct (PyStr.lower (PyStr.strip typed) =? "yes")%string;
    [|split; reflexivity].
  match goal with
  | |- context [try_except _ ?h] =>
      destruct (guarded_post w c u audio_file action_items h Ht)
        as (Hr & _ & Hc & _)
  end.
  unfold chats in *. rewrite filter_app, Hc, Hr. split; reflexivity.
Qed.

End StageFacts.

(** ** Posting from main.py *)

Section MainPost.

(** X12: stage 4 of main.py sends at most one card. It asks the user only
    when the action items pass the line-82 test and a webhook URL is set;
    it posts only when, besides, the prompt returns an answer that reads
    "yes" once stripped and lower-cased and the action items are not blank.
    The card then goes to the configured URL under the title "Action Items
    from: <file name>", with the action items as its text. The prompt
    stands outside the [try]: what it raises (the end of the input, say)
    leaves the stage with nothing posted; nothing else does. *)
Theorem post_stage_posts (w : World) (audio_file action_items : string) :
  run_result (Main.post_stage w audio_file action_items)
  = (if Main.postable action_items && PyStr.truthy (configured_webhook w)
     then match typed_choice w with
          | Returns _ => Done tt
          | Throws e => Raised e
          end
     else Done tt)
  /\ prompts (run_trace (Main.post_stage w audio_file action_items))
     = (if Main.postable action_items && PyStr.truthy (configured_webhook w)
        then [Input post_question] else [])
  /\ http_posts (run_trace (Main.post_stage w audio_file action_items))
     = (if Main.postable action_items && PyStr.truthy (configured_webhook w)
           && answered_yes w && negb (PyStr.isspace action_items)
        then [HttpPost (configured_webhook w)
                [("Content-Type", "application/json")]
                (Json.dumps
                   (TeamsPoster.payload
                      (Some ("Action Items from: "
                             ++ PyStr.basename audio_file))
                      action_items))
                10]
        else []).
Proof.
  unfold Main.post_stage, configured_webhook, answered_yes.
  destruct (Main.postable action_items) eqn:Hp; cbn [andb].
  2:{ destruct (PyStr.contains Main.sentinel action_items); repeat split. }
  destruct (getenv w "MS_TEAMS_WEBHOOK_URL") as [[|c u]|];
    cbn [PyStr.truthy andb]; try (repeat split; fail).
  assert (Ht : PyStr.truthy action_items = true).
  { unfold Main.postable in Hp.
    destruct (PyStr.truthy action_items); [reflexivity | discriminate Hp]. }
  destruct (typed_choice w) as [typed|e]; [|repeat split].
  rewrite run_bind_trace, run_bind_result.
  cbn [call run_result run_trace fst snd].
  destruct (PyStr.lower (PyStr.strip typed) =? "yes")%string;
    cbn [andb]; [|repeat split].
  match goal with
  | |- context [try_except _ ?h] =>
      destruct (guarded_post w c u audio_file action_items h Ht)
        as (Hr & Hpr & _ & Hh)
  end.
  unfold prompts, http_posts in *.
  rewrite !filter_app, Hr, Hpr, Hh.
  destruct (PyStr.isspace action_items); repeat split.
Qed.

End MainPost.

(** ** A TextProcessor that cannot be constructed *)

Section Unreachable.

Lemma main_before_stage_3 (w : World) (path t : string) :
  run_result (Main.record_stage w) = Done path ->
  run_result (Main.transcribe_stage w path) = Done t ->
  PyStr.truthy t = true /\ PyStr.isspace t = false
  /\ chats (run_trace (Main.record_stage w)) = []
  /\ http_posts (run_trace (Main.record_stage w)) = []
  /\ chats (run_trace (Main.transcribe_stage w path)) = []
  /\ http_posts (run_trace (Main.transcribe_stage w path)) = [].
Proof.
  intros Hr Ht.
  destruct (transcribe_stage_postcondition w path t Ht)
    as (_ & _ & _ & _ & Hstrip).
  apply strip_truthy in Hstrip as [H1 H2].
  destruct (record_stage_cases w) as (Hrl & Hrh & _).
  destruct (transcribe_stage_quiet w path) as (Htl & Hth & _).
  apply chats_of_llm_free in Hrl, Htl. auto 10.
Qed.

(** X13: main.py does not guard the construction of the TextProcessor.
    Whatever leaves the constructor, be it raised by [ollama.Client] or,
    the client once created, by the availability check and not a
    ResponseError, leaves [main] as well: no chat call is made and nothing
    is posted. *)
Theorem main_lets_constructor_failure_out (w : World) (path t : string)
    (e : exn) :
  run_result (Main.record_stage w) = Done path ->
  run_result (Main.transcribe_stage w path) = Done t ->
  constructor_failure (llm w) (getenv_default w "OLLAMA_MODEL" "llama2")
    (getenv w "OLLAMA_HOST") = Some e ->
  run_result (Main.main w) = Raised e
  /\ chats (run_trace (Main.main w)) = []
  /\ http_posts (run_trace (Main.main w)) = [].
Proof.
  intros Hr Ht Hc.
  destruct (main_before_stage_3 w path t Hr Ht)
    as (H1 & H2 & Hrc & Hrh & Htc & Hth).
  destruct (process_stage_facts w t H1 H2) as (Hpc & Hph & Hpr).
  unfold main_model, main_host in *. rewrite Hc in Hpc, Hpr.
  unfold Main.main.
  rewrite ?run_bind_result, ?run_bind_trace.
  change (run_result Main.banner) with (@Done unit tt). cbv iota.
  rewrite ?run_bind_result, ?run_bind_trace, Hr. cbv iota.
  rewrite ?run_bind_result, ?run_bind_trace, Ht. cbv iota.
  rewrite H1, H2. cbn [negb orb].
  rewrite ?run_bind_result, ?run_bind_trace, Hpr.
  unfold chats, http_posts in *.
  rewrite !filter_app, Hrc, Hrh, Htc, Hth, Hpc, Hph.
  rewrite ?run_bind_result, ?Hpr.
  repeat split.
Qed.

Lemma main_lets_constructor_failure_out_witness :
  run_result (Main.main world_bad_host) = Raised (ValueError "invalid port")
  /\ chats (run_trace (Main.main world_bad_host)) = []
  /\ http_posts (run_trace (Main.main world_bad_host)) = [].
Proof.
  apply (main_lets_constructor_failure_out world_bad_host
           "recorded_audio.wav" "Mike will fix the login bug by Friday."
           (ValueError "invalid port")); reflexivity.
Defined.

End Unreachable.

(** ** Runs that reach the end *)

Section Completion.

(** X14: once stage 2 has handed on a text, [main] runs to its end whenever
    the TextProcessor can be constructed (the client is created and the
    availability check returns or raises a ResponseError) and the yes/no
    prompt returns an answer: failures of the two chat calls and of the
    webhook are absorbed. *)
Theorem main_completes (w : World) (path t : string) :
  run_result (Main.record_stage w) = Done path ->
  run_result (Main.transcribe_stage w path) = Done t ->
  constructor_failure (llm w) (getenv_default w "OLLAMA_MODEL" "llama2")
    (getenv w "OLLAMA_HOST") = None ->
  is_returns (typed_choice w) = true ->
  run_result (Main.main w) = Done tt.
Proof.
  intros Hr Ht Hc Hy.
  destruct (main_before_stage_3 w path t Hr Ht) as (H1 & H2 & _).
  destruct (process_stage_facts w t H1 H2) as (_ & _ & Hpr).
  unfold main_model, main_host in *. rewrite Hc in Hpr.
  destruct Hpr as (a & Ha).
  unfold Main.main.
  rewrite run_bind_result.
  change (run_result Main.banner) with (@Done unit tt). cbv iota.
  rewrite run_bind_result, Hr. cbv iota.
  rewrite run_bind_result, Ht. cbv iota.
  rewrite H1, H2. cbn [negb orb].
  rewrite !run_bind_result, Ha. cbv iota.
  rewrite (proj2 (post_stage_facts w path a)).
  destruct (typed_choice w) as [typed|e0]; [|discriminate Hy].
  destruct (asks_user w a); reflexivity.
Qed.

Lemma main_completes_witness :
  run_result (Main.main world_model_missing) = Done tt.
Proof.
  apply (main_completes world_model_missing "recorded_audio.wav"
           "Mike will fix the login bug by Friday."); reflexivity.
Defined.

End Completion.

(** ** The transcript that reaches the TextProcessor *)

Section HandedOnVerbatim.

(** C6 (amended): when the speech model recognises a text that holds no
    "Error:" marker and is not blank, stage 2 of main.py hands on that text
    unchanged, leading and trailing whitespace included; [strip] is applied
    only inside the emptiness test. Stage 3 runs on exactly that text, and
    with a TextProcessor that can be constructed the two chat calls of
    [main] are made, in this order, with the summary prompt and the
    action-item prompt built around the text as recognised. *)
Theorem transcript_handed_on_verbatim (w : World) (path heard : string) :
  Transcriber.imported (speech w) = true ->
  Transcriber.load_model (speech w) "tiny" = Returns tt ->
  path_exists w path = true ->
  Transcriber.transcribe (speech w) path = Returns heard ->
  PyStr.contains "Error:" heard = false ->
  PyStr.truthy (PyStr.strip heard) = true ->
  run_result (Main.record_stage w) = Done path ->
  constructor_failure (llm w) (getenv_default w "OLLAMA_MODEL" "llama2")
    (getenv w "OLLAMA_HOST") = None ->
  run_result (Main.transcribe_stage w path) = Done heard
  /\ (exists pre post : trace,
        run_trace (Main.main w)
        = (pre ++ run_trace (Main.process_stage w heard) ++ post)%list)
  /\ chats (run_trace (Main.main w))
     = [Chat (getenv_default w "OLLAMA_MODEL" "llama2")
          (TextProcessor.summarize_prompt heard);
        Chat (getenv_default w "OLLAMA_MODEL" "llama2")
          (TextProcessor.action_items_prompt heard)].
Proof.
  intros Hi Hl He Ht Hm Hs Hr Hc.
  pose proof (transcribe_stage_success w path heard Hi Hl He Ht Hm Hs) as H.
  split; [exact H|].
  split; [exact (main_hands_on w path heard Hr H Hs)|].
  destruct (main_before_stage_3 w path heard Hr H)
    as (H1 & H2 & Hrc & _ & Htc & _).
  destruct (process_stage_facts w heard H1 H2) as (Hpc & _ & Hpr).
  unfold main_model, main_host in *. rewrite Hc in Hpc, Hpr.
  destruct Hpr as (a & Ha).
  destruct (post_stage_facts w path a) as (Hqc & _).
  unfold Main.main.
  rewrite ?run_bind_trace.
  change (run_result Main.banner) with (@Done unit tt). cbv iota.
  rewrite ?run_bind_trace, Hr. cbv iota.
  rewrite ?run_bind_trace, H. cbv iota.
  rewrite H1, H2. cbn [negb orb].
  rewrite ?run_bind_trace, ?run_bind_result, Ha. cbv iota.
  unfold chats in *.
  rewrite !filter_app, Hrc, Htc, Hpc, Hqc.
  destruct (run_result (Main.post_stage w path a)); reflexivity.
Qed.

Lemma transcript_handed_on_verbatim_witness :
  run_result (Main.transcribe_stage world_leading_blank Main.output_filename)
  = Done " hi"
  /\ (exists pre post : trace,
        run_trace (Main.main world_leading_blank)
        = (pre ++ run_trace (Main.process_stage world_leading_blank " hi")
           ++ post)%list)
  /\ chats (run_trace (Main.main world_leading_blank))
     = [Chat "llama2" (TextProcessor.summarize_prompt " hi");
        Chat "llama2" (TextProcessor.action_items_prompt " hi")].
Proof.
  apply (transcript_handed_on_verbatim world_leading_blank
           Main.output_filename " hi"); reflexivity.
Defined.

End HandedOnVerbatim.
